(** * An OCI distribution registry: storage engine and protocol adapter

    Shallow embedding of the Go package [oci] (digests, the path layout,
    the session manager, the error values and the engine [OCIStorage])
    and of the handlers of package [handlers], together with the parts of
    the Go standard library they call: [strings], [path], [crypto/sha256],
    [errors], and [regexp] on the one pattern the code compiles.

    Conventions.
    - A Go [string] and a Go [[]byte] are both finite byte sequences; they
      are modelled by [list ascii].  [str] turns a literal into one.
    - [int64] counters and monotonic clock readings are [Z].
    - Every function that touches mutable state takes the state and
      returns the new state next to its result.  The clock reading
      ([time.Now]) and the outcome of [crypto/rand.Read] are inputs.
    - A Go [(T, error)] result is a [result T]; a lone [error] is an
      [option error], [None] being nil. *)

From Stdlib Require Import ZArith NArith Ascii String List Bool Lia.
From stdpp Require Import base option list gmap strings.

Local Open Scope Z_scope.

(** ** Byte strings *)

Definition str (s : string) : list ascii := list_ascii_of_string s.

Definition byte_val (c : ascii) : N := N_of_ascii c.

Definition byte_is (c : ascii) (n : N) : bool := N.eqb (byte_val c) n.

Definition byte_in (lo hi : N) (c : ascii) : bool :=
  N.leb lo (byte_val c) && N.leb (byte_val c) hi.

Definition bytes_eqb (a b : list ascii) : bool := bool_decide (a = b).

(** [join sep parts]: the parts separated by [sep]. *)
Fixpoint join (sep : list ascii) (parts : list (list ascii)) : list ascii :=
  match parts with
  | [] => []
  | [p] => p
  | p :: rest => p ++ sep ++ join sep rest
  end.

(** [split sep s]: the pieces of [s] between occurrences of the byte [sep]
    (always at least one piece). *)
Fixpoint split (sep : ascii) (s : list ascii) : list (list ascii) :=
  match s with
  | [] => [[]]
  | c :: s' =>
      if Ascii.eqb c sep then [] :: split sep s'
      else match split sep s' with
           | h :: t => (c :: h) :: t
           | [] => [[c]]
           end
  end.

(** ** Errors (package errors, oci/errors.go) *)

Inductive error : Type :=
  | ErrBlobNotFound
  | ErrManifestNotFound
  | ErrUploadNotFound
  | ErrDigestMismatch
  | ErrInvalidDigest
  | ErrManifestTooLarge
  | ErrFileNotFound                         (* storage.ErrFileNotFound *)
  | ErrOther (msg : list ascii)             (* any other error value of a collaborator *)
  | Wrap (msg : list ascii) (inner : error) (* fmt.Errorf with the verb %w *).

#[global] Instance error_eq_dec : EqDecision error.
Proof. solve_decision. Defined.

(** [errors.Is]: the target is the error or one it wraps. *)
Fixpoint errors_Is (e target : error) : bool :=
  bool_decide (e = target) ||
  match e with
  | Wrap _ inner => errors_Is inner target
  | _ => false
  end.

Inductive result (A : Type) : Type :=
  | Ok (a : A)
  | Err (e : error).
Arguments Ok {A} a.
Arguments Err {A} e.

(** ** Package strings *)

Module strings.

(** The table [asciiSpace]: tab, newline, vertical tab, form feed,
    carriage return, space. *)
Definition asciiSpace (c : ascii) : bool :=
  byte_in 9 13 c || byte_is c 32.

(** [unicode.IsSpace] on runes outside ASCII, read off their UTF-8
    encodings: U+0085 and U+00A0 take two bytes; U+1680, U+2000..U+200A,
    U+2028, U+2029, U+202F, U+205F and U+3000 take three.  A byte
    sequence that does not decode to one of these runes (any other rune,
    or an invalid encoding, which decodes to U+FFFD of width 1) is not
    white space. *)
Definition isSpace2 (a b : ascii) : bool :=
  byte_is a 0xC2 && (byte_is b 0x85 || byte_is b 0xA0).

Definition isSpace3 (a b c : ascii) : bool :=
  (byte_is a 0xE1 && byte_is b 0x9A && byte_is c 0x80) ||
  (byte_is a 0xE2 && byte_is b 0x80 &&
     (byte_in 0x80 0x8A c || byte_is c 0xA8 || byte_is c 0xA9 || byte_is c 0xAF)) ||
  (byte_is a 0xE2 && byte_is b 0x81 && byte_is c 0x9F) ||
  (byte_is a 0xE3 && byte_is b 0x80 && byte_is c 0x80).

(** [TrimLeftFunc(s, unicode.IsSpace)]. *)
Fixpoint TrimLeftSpace (s : list ascii) : list ascii :=
  match s with
  | [] => []
  | a :: s1 =>
      if asciiSpace a then TrimLeftSpace s1
      else match s1 with
           | [] => s
           | b :: s2 =>
               if isSpace2 a b then TrimLeftSpace s2
               else match s2 with
                    | [] => s
                    | c :: s3 => if isSpace3 a b c then TrimLeftSpace s3 else s
                    end
           end
  end.

(** The same scan on the reversed string: the last rune is decoded from
    the end, so its bytes appear in reverse order. *)
Fixpoint TrimLeftSpaceRev (s : list ascii) : list ascii :=
  match s with
  | [] => []
  | a :: s1 =>
      if asciiSpace a then TrimLeftSpaceRev s1
      else match s1 with
           | [] => s
           | b :: s2 =>
               if isSpace2 b a then TrimLeftSpaceRev s2
               else match s2 with
                    | [] => s
                    | c :: s3 => if isSpace3 c b a then TrimLeftSpaceRev s3 else s
                    end
           end
  end.

(** [TrimRightFunc(s, unicode.IsSpace)]. *)
Definition TrimRightSpace (s : list ascii) : list ascii :=
  rev (TrimLeftSpaceRev (rev s)).

(** [strings.TrimSpace]: leading and trailing white space removed. *)
Definition TrimSpace (s : list ascii) : list ascii :=
  TrimRightSpace (TrimLeftSpace s).

(** [strings.Contains(s, string(c))] for a one-byte substring. *)
Definition Contains (s : list ascii) (c : ascii) : bool :=
  existsb (Ascii.eqb c) s.

(** [strings.SplitN(s, string(sep), 2)]: [s] cut at the first [sep], or
    [s] alone when there is none. *)
Fixpoint SplitN2 (s : list ascii) (sep : ascii) : list (list ascii) :=
  match s with
  | [] => [[]]
  | c :: s' =>
      if Ascii.eqb c sep then [[]; s']
      else match SplitN2 s' sep with
           | [h] => [c :: h]
           | h :: t => (c :: h) :: t
           | [] => [[c]]
           end
  end.

End strings.

(** A byte that is neither ASCII white space nor part of a multi-byte
    rune: [TrimSpace] stops at it. *)
Definition solid (c : ascii) : Prop :=
  strings.asciiSpace c = false /\ (byte_val c < 128)%N.

(** ** Regular expressions (package regexp, as far as digest.go needs it) *)

Inductive regex : Type :=
  | Class (p : ascii -> bool)
  | Lit (c : ascii)
  | Cat (r1 r2 : regex)
  | Plus (r : regex).

(** [matches r s]: the whole of [s] is in the language of [r]
    (the pattern is anchored by ^ and $ on both sides). *)
Inductive matches : regex -> list ascii -> Prop :=
  | MClass p c : p c = true -> matches (Class p) [c]
  | MLit c : matches (Lit c) [c]
  | MCat r1 r2 s1 s2 :
      matches r1 s1 -> matches r2 s2 -> matches (Cat r1 r2) (s1 ++ s2)
  | MPlus1 r s : matches r s -> matches (Plus r) s
  | MPlusS r s1 s2 :
      matches r s1 -> matches (Plus r) s2 -> matches (Plus r) (s1 ++ s2).

(** [[a-z0-9]] and [[a-f0-9]]. *)
Definition az09 (c : ascii) : bool := byte_in 97 122 c || byte_in 48 57 c.
Definition af09 (c : ascii) : bool := byte_in 97 102 c || byte_in 48 57 c.

Definition colon : ascii := ":"%char.

(** [digestRegexp = regexp.MustCompile(`^([a-z0-9]+):([a-f0-9]+)$`)]. *)
Definition digestRegexp : regex :=
  Cat (Plus (Class az09)) (Cat (Lit colon) (Plus (Class af09))).

(** The language of [digestRegexp] written out: [s] is [alg], a colon
    and [hx], both non-empty and made of the bytes of their class. *)
Definition digest_shape (s alg hx : list ascii) : Prop :=
  s = alg ++ colon :: hx /\
  alg <> [] /\ forallb az09 alg = true /\ hx <> [] /\ forallb af09 hx = true.

(** Longest prefix of [s] whose bytes satisfy [p], and the rest: what a
    greedy [[...]+] consumes. *)
Fixpoint span (p : ascii -> bool) (s : list ascii) : list ascii * list ascii :=
  match s with
  | [] => ([], [])
  | c :: s' =>
      if p c then let '(a, r) := span p s' in (c :: a, r)
      else ([], s)
  end.

(** [digestRegexp.FindStringSubmatch(s)]: the two capture groups, or
    [None] for Go's nil.  The first group takes the longest run of
    [[a-z0-9]]; a shorter run would be followed by a byte of the class and
    not by the colon, so no backtracking can succeed. *)
Definition FindStringSubmatch (s : list ascii) : option (list ascii * list ascii) :=
  match span az09 s with
  | ((_ :: _) as alg, c :: rest) =>
      if Ascii.eqb c colon then
        match span af09 rest with
        | ((_ :: _) as hx, []) => Some (alg, hx)
        | _ => None
        end
      else None
  | _ => None
  end.

(** ** oci/digest.go *)

Record DigestInfo : Type := mkDigest {
  Algorithm : list ascii;
  Hex : list ascii;
}.

#[global] Instance DigestInfo_eq_dec : EqDecision DigestInfo.
Proof. solve_decision. Defined.

(** [DigestInfo.String]. *)
Definition String_ (d : DigestInfo) : list ascii :=
  Algorithm d ++ str ":" ++ Hex d.

(** [DigestInfo.ShortHex]. *)
Definition ShortHex (d : DigestInfo) : list ascii :=
  if (length (Hex d) <? 2)%nat then Hex d else take 2 (Hex d).

(** [ParseDigest].  The error is [fmt.Errorf("%w: %q", ErrInvalidDigest, s)];
    the quoted string is kept as the message. *)
Definition ParseDigest (s : list ascii) : result DigestInfo :=
  let s := strings.TrimSpace s in
  match FindStringSubmatch s with
  | None => Err (Wrap s ErrInvalidDigest)
  | Some (alg, hx) => Ok {| Algorithm := alg; Hex := hx |}
  end.

(** ** crypto/sha256 (FIPS 180-4) and the verb %x of fmt *)

Module sha256.
Local Open Scope N_scope.

Definition w32 (x : N) : N := N.land x 0xFFFFFFFF.
Definition add32 (a b : N) : N := w32 (a + b).
Definition rotr (n x : N) : N :=
  N.lor (N.shiftr x n) (w32 (N.shiftl x (32 - n))).
Definition not32 (x : N) : N := N.lxor x 0xFFFFFFFF.

Definition Ch (x y z : N) : N := N.lxor (N.land x y) (N.land (not32 x) z).
Definition Maj (x y z : N) : N :=
  N.lxor (N.lxor (N.land x y) (N.land x z)) (N.land y z).
Definition bsig0 (x : N) : N := N.lxor (N.lxor (rotr 2 x) (rotr 13 x)) (rotr 22 x).
Definition bsig1 (x : N) : N := N.lxor (N.lxor (rotr 6 x) (rotr 11 x)) (rotr 25 x).
Definition ssig0 (x : N) : N := N.lxor (N.lxor (rotr 7 x) (rotr 18 x)) (N.shiftr x 3).
Definition ssig1 (x : N) : N := N.lxor (N.lxor (rotr 17 x) (rotr 19 x)) (N.shiftr x 10).

(** The round constants (the first 32 bits of the fractional parts of the
    cube roots of the first 64 primes), in decimal. *)
Definition K : list N :=
  [
   1116352408; 1899447441; 3049323471; 3921009573; 961987163; 1508970993;
   2453635748; 2870763221; 3624381080; 310598401; 607225278; 1426881987;
   1925078388; 2162078206; 2614888103; 3248222580; 3835390401; 4022224774;
   264347078; 604807628; 770255983; 1249150122; 1555081692; 1996064986;
   2554220882; 2821834349; 2952996808; 3210313671; 3336571891; 3584528711;
   113926993; 338241895; 666307205; 773529912; 1294757372; 1396182291;
   1695183700; 1986661051; 2177026350; 2456956037; 2730485921; 2820302411;
   3259730800; 3345764771; 3516065817; 3600352804; 4094571909; 275423344;
   430227734; 506948616; 659060556; 883997877; 958139571; 1322822218;
   1537002063; 1747873779; 1955562222; 2024104815; 2227730452; 2361852424;
   2428436474; 2756734187; 3204031479; 3329325298
  ].

(** The eight working variables a..h, also the chaining value. *)
Definition hstate : Type := (N * N * N * N * N * N * N * N)%type.

Definition H0 : hstate :=
  (1779033703, 3144134277, 1013904242, 2773480762,
   1359893119, 2600822924, 528734635, 1541459225).

(** Big-endian 64-bit length in bits. *)
Definition len64 (n : N) : list N :=
  map (fun i => N.land (N.shiftr (8 * n) (8 * i)) 0xFF) [7; 6; 5; 4; 3; 2; 1; 0].

(** The message, one 1 bit, zeros up to 56 mod 64 bytes, the length. *)
Definition pad (msg : list N) : list N :=
  let n := N.of_nat (length msg) in
  let k := (64 - ((n + 9) mod 64)) mod 64 in
  msg ++ [0x80] ++ repeat 0 (N.to_nat k) ++ len64 n.

Fixpoint words_of_bytes (l : list N) : list N :=
  match l with
  | a :: b :: c :: d :: rest =>
      (N.shiftl a 24 + N.shiftl b 16 + N.shiftl c 8 + d) :: words_of_bytes rest
  | _ => []
  end.

(** The message schedule: 16 words extended to 64. *)
Fixpoint schedule (fuel : nat) (w : list N) : list N :=
  match fuel with
  | O => w
  | S fuel' =>
      let t := length w in
      let at_ (k : nat) := nth (t - k) w 0 in
      let x := add32 (add32 (ssig1 (at_ 2%nat)) (at_ 7%nat))
                     (add32 (ssig0 (at_ 15%nat)) (at_ 16%nat)) in
      schedule fuel' (w ++ [x])
  end.

Definition round (s : hstate) (kw : N * N) : hstate :=
  let '(a, b, c, d, e, f, g, h) := s in
  let '(k, w) := kw in
  let t1 := add32 (add32 (add32 h (bsig1 e)) (add32 (Ch e f g) k)) w in
  let t2 := add32 (bsig0 a) (Maj a b c) in
  (add32 t1 t2, a, b, c, add32 d t1, e, f, g).

Definition compress (s : hstate) (block : list N) : hstate :=
  let w := schedule 48 block in
  let '(a, b, c, d, e, f, g, h) := fold_left round (combine K w) s in
  let '(a0, b0, c0, d0, e0, f0, g0, h0) := s in
  (add32 a0 a, add32 b0 b, add32 c0 c, add32 d0 d,
   add32 e0 e, add32 f0 f, add32 g0 g, add32 h0 h).

Fixpoint blocks (fuel : nat) (ws : list N) (s : hstate) : hstate :=
  match fuel, ws with
  | S fuel', _ :: _ => blocks fuel' (drop 16 ws) (compress s (take 16 ws))
  | _, _ => s
  end.

Definition bytes_of_word (w : N) : list ascii :=
  map (fun i => ascii_of_N (N.land (N.shiftr w (8 * i)) 0xFF)) [3; 2; 1; 0].

(** [sha256.Sum256]: the 32-byte digest. *)
Definition Sum256 (data : list ascii) : list ascii :=
  let ws := words_of_bytes (pad (map byte_val data)) in
  let '(a, b, c, d, e, f, g, h) := blocks (length ws) ws H0 in
  bytes_of_word a ++ bytes_of_word b ++ bytes_of_word c ++ bytes_of_word d ++
  bytes_of_word e ++ bytes_of_word f ++ bytes_of_word g ++ bytes_of_word h.
End sha256.

(** One hexadecimal digit, lowercase. *)
Definition hexdigit (n : N) : ascii :=
  if (n <? 10)%N then ascii_of_N (48 + n) else ascii_of_N (87 + n).

(** [fmt.Sprintf("%x", b)] on a byte slice: two digits per byte. *)
Definition Sprintf_x (b : list ascii) : list ascii :=
  flat_map (fun c => [hexdigit (byte_val c / 16); hexdigit (byte_val c mod 16)]) b.

(** ** Readers (io.Reader, io.ReadAll) *)

(** A reader is the bytes it will deliver and the error, if any, that ends
    the stream instead of io.EOF. *)
Record Reader : Type := mkReader {
  rd_data : list ascii;
  rd_err : option error;
}.

(** [bytes.NewReader(b)] and [strings.NewReader(s)]. *)
Definition NewReader (b : list ascii) : Reader :=
  {| rd_data := b; rd_err := None |}.

(** [io.ReadAll]. *)
Definition ReadAll (r : Reader) : result (list ascii) :=
  match rd_err r with
  | None => Ok (rd_data r)
  | Some e => Err e
  end.

(** ** VerifyingReader (oci/digest.go) *)

(** The state of a [VerifyingReader] once its source has been drained:
    the bytes that went through the hasher and their count. *)
Record VerifyingReader : Type := mkVR {
  hashed : list ascii;
  size : Z;
}.

(** [io.ReadAll(NewVerifyingReader(r))]: the result of the read and the
    verifying reader afterwards. *)
Definition ReadAllVerifying (r : Reader) : result (list ascii) * VerifyingReader :=
  (ReadAll r, {| hashed := rd_data r; size := Z.of_nat (length (rd_data r)) |}).

(** [VerifyingReader.Digest]. *)
Definition Digest (vr : VerifyingReader) : DigestInfo :=
  {| Algorithm := str "sha256"; Hex := Sprintf_x (sha256.Sum256 (hashed vr)) |}.

(** [VerifyingReader.Verify]: [None] is Go's nil error. *)
Definition Verify (vr : VerifyingReader) (expected : DigestInfo) : option error :=
  let computed := Digest vr in
  if negb (bytes_eqb (Algorithm computed) (Algorithm expected))
     || negb (bytes_eqb (Hex computed) (Hex expected))
  then Some (Wrap (str "expected " ++ String_ expected ++ str ", got " ++ String_ computed)
                  ErrDigestMismatch)
  else None.

(** The digest the tests call [computeSHA256(data)]. *)
Definition computeSHA256 (data : list ascii) : DigestInfo :=
  {| Algorithm := str "sha256"; Hex := Sprintf_x (sha256.Sum256 data) |}.

(** ** Package path *)

Module path.

Definition slash : ascii := "/"%char.

(** One element of the path seen by the loop of [Clean].  [out] holds the
    elements written so far, newest first; [dotdot] counts the elements
    at the bottom of [out] that a ".." may not remove. *)
Definition clean_step (rooted : bool)
    (st : list (list ascii) * nat) (elem : list ascii) : list (list ascii) * nat :=
  let '(out, dotdot) := st in
  if bytes_eqb elem [] then st
  else if bytes_eqb elem (str ".") then st
  else if bytes_eqb elem (str "..") then
    if (dotdot <? length out)%nat then (tail out, dotdot)
    else if rooted then st
    else (elem :: out, S (length out))
  else (elem :: out, dotdot).

(** [path.Clean]. *)
Definition Clean (p : list ascii) : list ascii :=
  match p with
  | [] => str "."
  | c :: _ =>
      let rooted := Ascii.eqb c slash in
      let '(out, _) := fold_left (clean_step rooted) (split slash p) ([], O) in
      let body := join [slash] (rev out) in
      if rooted then slash :: body
      else match out with
           | [] => str "."
           | _ => body
           end
  end.

(** [path.Join]: empty elements are ignored, the rest is joined by
    slashes and cleaned; the empty string when nothing is left. *)
Definition Join (elem : list (list ascii)) : list ascii :=
  match filter (fun e => e <> []) elem with
  | [] => []
  | es => Clean (join [slash] es)
  end.

End path.

(** An element that [path.Clean] copies unchanged: not empty, and free of
    slashes and dots. *)
Definition plain_byte (c : ascii) : bool :=
  negb (Ascii.eqb c path.slash) && negb (Ascii.eqb c "."%char).

Definition plain (e : list ascii) : Prop :=
  e <> [] /\ forallb plain_byte e = true.

(** ** oci/path.go *)

Definition BlobDataPath (d : DigestInfo) : list ascii :=
  path.Join [str "v2/blobs"; Algorithm d; ShortHex d; Hex d; str "data"].

Definition ManifestRevisionLinkPath (name : list ascii) (d : DigestInfo) : list ascii :=
  path.Join [str "v2/repositories"; name; str "_manifests/revisions";
             Algorithm d; Hex d; str "link"].

Definition ManifestTagCurrentLinkPath (name tag : list ascii) : list ascii :=
  path.Join [str "v2/repositories"; name; str "_manifests/tags"; tag; str "current/link"].

Definition ManifestTagsDir (name : list ascii) : list ascii :=
  path.Join [str "v2/repositories"; name; str "_manifests/tags"].

Definition UploadDataPath (uuid : list ascii) : list ascii :=
  path.Join [str "v2/uploads"; uuid; str "data"].

(** ** oci/session.go *)

Record UploadSession : Type := mkSession {
  UUID : list ascii;
  Repository : list ascii;
  StartedAt : Z;
  BytesWritten : Z;
}.

(** The session table and the configured timeout.  The mutex only orders
    concurrent callers; one call at a time is modelled. *)
Record SessionManager : Type := mkSM {
  sessions : gmap (list ascii) UploadSession;
  timeout : Z;
}.

Definition NewSessionManager (timeout : Z) : SessionManager :=
  {| sessions := ∅; timeout := timeout |}.

(** Left padding with zeros to a minimal width (the flag 0 of fmt). *)
Definition zero_pad (width : nat) (s : list ascii) : list ascii :=
  repeat "0"%char (width - length s) ++ s.

(** [uuid[i:j]]. *)
Definition slice (i j : nat) (l : list ascii) : list ascii :=
  take (j - i) (drop i l).

(** [generateUUID].  [rnd] is the outcome of [rand.Read(uuid[:])]: the 16
    bytes it filled in, or its error. *)
Definition generateUUID (rnd : result (list ascii)) : result (list ascii) :=
  match rnd with
  | Err e => Err e
  | Ok uuid =>
      let uuid := alter (fun c => ascii_of_N (N.lor (N.land (byte_val c) 0x0f) 0x40)) 6%nat uuid in
      let uuid := alter (fun c => ascii_of_N (N.lor (N.land (byte_val c) 0x3f) 0x80)) 8%nat uuid in
      Ok (zero_pad 8 (Sprintf_x (slice 0 4 uuid)) ++ str "-" ++
          zero_pad 4 (Sprintf_x (slice 4 6 uuid)) ++ str "-" ++
          zero_pad 4 (Sprintf_x (slice 6 8 uuid)) ++ str "-" ++
          zero_pad 4 (Sprintf_x (slice 8 10 uuid)) ++ str "-" ++
          zero_pad 12 (Sprintf_x (slice 10 16 uuid)))
  end.

(** The bytes of a generated UUID: lowercase hexadecimal digits and
    hyphens. *)
Definition uuid_byte (c : ascii) : bool := af09 c || Ascii.eqb c "-"%char.

(** The shape of a generated UUID: 36 bytes, hexadecimal digits and
    hyphens. *)
Definition uuid_shaped (u : list ascii) : Prop :=
  length u = 36%nat /\ forallb uuid_byte u = true.

(** [SessionManager.Create]. *)
Definition Create (sm : SessionManager) (repository : list ascii)
    (now : Z) (rnd : result (list ascii)) : result (list ascii) * SessionManager :=
  match generateUUID rnd with
  | Err e => (Err (Wrap (str "failed to generate UUID") e), sm)
  | Ok uuid =>
      let session := {| UUID := uuid; Repository := repository;
                        StartedAt := now; BytesWritten := 0 |} in
      (Ok uuid, {| sessions := <[uuid := session]> (sessions sm); timeout := timeout sm |})
  end.

(** [SessionManager.Delete]. *)
Definition Delete (sm : SessionManager) (uuid : list ascii) : SessionManager :=
  {| sessions := delete uuid (sessions sm); timeout := timeout sm |}.

(** [SessionManager.Get]; [now - StartedAt] is [time.Since(StartedAt)]. *)
Definition Get (sm : SessionManager) (uuid : list ascii) (now : Z)
    : result UploadSession * SessionManager :=
  match sessions sm !! uuid with
  | None => (Err ErrUploadNotFound, sm)
  | Some session =>
      if timeout sm <? now - StartedAt session
      then (Err ErrUploadNotFound, Delete sm uuid)
      else (Ok session, sm)
  end.

(** [SessionManager.UpdateBytes]. *)
Definition UpdateBytes (sm : SessionManager) (uuid : list ascii) (bytesWritten : Z)
    : option error * SessionManager :=
  match sessions sm !! uuid with
  | None => (Some ErrUploadNotFound, sm)
  | Some session =>
      let session' := {| UUID := UUID session; Repository := Repository session;
                         StartedAt := StartedAt session; BytesWritten := bytesWritten |} in
      (None, {| sessions := <[uuid := session']> (sessions sm); timeout := timeout sm |})
  end.

(** A session table as the engine builds it: every session is filed
    under its own UUID, which has the shape of a generated one, and its
    byte count is not negative. *)
Definition sessions_wf (sm : SessionManager) : Prop :=
  forall k session,
    sessions sm !! k = Some session ->
    UUID session = k /\ uuid_shaped k /\ 0 <= BytesWritten session.

(** ** The blob store (interface storage.BlobStorage) *)

(** Modelled from the spec: the package [storage] is an external
    collaborator; only the interface the engine consumes is known
    ([upload], [download], [exists], [delete], [list] keyed by logical
    path).  Every method may fail with any error value; [store_upload] and
    [store_delete] return the store they leave behind. *)
Class BlobStorage (S : Type) : Type := {
  store_upload : list ascii -> list ascii -> S -> option error * S;
  store_download : list ascii -> S -> result Reader;
  store_exists : list ascii -> S -> result bool;
  store_delete : list ascii -> S -> option error * S;
  store_list : list ascii -> S -> result (list (list ascii));
}.

(** Modelled from the spec: a store that honours the contract on every
    call: [upload] stores the bytes, overwriting, [download] returns what
    was stored last, and writing or deleting one path leaves the others
    alone. *)
Class ReliableStore (S : Type) `{BlobStorage S} : Prop := {
  upload_succeeds : forall p d s, (store_upload p d s).1 = None;
  download_upload_eq : forall p d s,
    store_download p (store_upload p d s).2 = Ok (NewReader d);
  download_upload_ne : forall p q d s, p <> q ->
    store_download q (store_upload p d s).2 = store_download q s;
  download_delete_ne : forall p q s, p <> q ->
    store_download q (store_delete p s).2 = store_download q s;
}.

(** Modelled from the spec: the contract realised by a finite map from
    paths to contents (the store the tests obtain from
    [storage.NewLocalStorage] on an empty directory starts as [∅]). *)
Definition MemStore : Type := gmap (list ascii) (list ascii).

(** The name of the immediate child of [dir] on the way to [p], if [p]
    lies below [dir]. *)
Fixpoint child_of (dir p : list ascii) : option (list ascii) :=
  match dir, p with
  | [], c :: rest =>
      if Ascii.eqb c path.slash
      then match split path.slash rest with
           | ((_ :: _) as h) :: _ => Some h
           | _ => None
           end
      else None
  | a :: dir', c :: p' => if Ascii.eqb a c then child_of dir' p' else None
  | _, [] => None
  end.

#[global] Instance MemStore_storage : BlobStorage MemStore := {
  store_upload p d m := (None, <[p := d]> m);
  store_download p m :=
    match m !! p with
    | Some d => Ok (NewReader d)
    | None => Err ErrFileNotFound
    end;
  store_exists p m := Ok (bool_decide (is_Some (m !! p)));
  store_delete p m := (None, delete p m);
  store_list dir m := Ok (remove_dups (omap (fun kv => child_of dir kv.1) (map_to_list m)));
}.

(** A store whose directory listing fails (say, an I/O error of the
    file system) and which otherwise behaves as [MemStore]. *)
Record ListFailStore : Type := mkListFail { lf_files : MemStore }.

#[global] Instance ListFailStore_storage : BlobStorage ListFailStore := {
  store_upload p d s := (None, mkListFail (<[p := d]> (lf_files s)));
  store_download p s := store_download p (lf_files s);
  store_exists p s := store_exists p (lf_files s);
  store_delete p s := (None, mkListFail (delete p (lf_files s)));
  store_list dir s := Err (ErrOther (str "input/output error"));
}.

(** A store on which every write fails (say, a full disk) and which
    otherwise behaves as [MemStore]. *)
Record FullStore : Type := mkFull { full_files : MemStore }.

#[global] Instance FullStore_storage : BlobStorage FullStore := {
  store_upload p d s := (Some (ErrOther (str "no space left on device")), s);
  store_download p s := store_download p (full_files s);
  store_exists p s := store_exists p (full_files s);
  store_delete p s := (None, mkFull (delete p (full_files s)));
  store_list dir s := store_list dir (full_files s);
}.

(** ** The engine [OCIStorage] (package oci) *)

Section Engine.
Context {S : Type} `{BlobStorage S}.

Record OCIStorage : Type := mkOCI {
  store : S;
  sm : SessionManager;
}.

Definition NewOCIStorage (store : S) (sessions : SessionManager) : OCIStorage :=
  {| store := store; sm := sessions |}.

(** [isDigestReference]. *)
Definition isDigestReference (ref : list ascii) : bool :=
  strings.Contains ref colon.

Definition BlobExists (s : OCIStorage) (digest : DigestInfo) : result bool :=
  store_exists (BlobDataPath digest) (store s).

Definition GetBlob (s : OCIStorage) (digest : DigestInfo) : result Reader :=
  match store_download (BlobDataPath digest) (store s) with
  | Err e =>
      if bool_decide (e = ErrFileNotFound) then Err ErrBlobNotFound
      else Err (Wrap (str "failed to get blob") e)
  | Ok rc => Ok rc
  end.

(** [BlobInfo] is the pair of its digest and size. *)
Definition GetBlobInfo (s : OCIStorage) (digest : DigestInfo) : result (DigestInfo * Z) :=
  match BlobExists s digest with
  | Err e => Err e
  | Ok false => Err ErrBlobNotFound
  | Ok true =>
      match store_download (BlobDataPath digest) (store s) with
      | Err e => Err (Wrap (str "failed to get blob info") e)
      | Ok rc =>
          match ReadAll rc with
          | Err e => Err (Wrap (str "failed to read blob size") e)
          | Ok data => Ok (digest, Z.of_nat (length data))
          end
      end
  end.

Definition InitiateUpload (s : OCIStorage) (repository : list ascii)
    (now : Z) (rnd : result (list ascii)) : result (list ascii) * OCIStorage :=
  match Create (sm s) repository now rnd with
  | (Err e, sm') =>
      (Err (Wrap (str "failed to create upload session") e), {| store := store s; sm := sm' |})
  | (Ok uuid, sm') =>
      match store_upload (UploadDataPath uuid) [] (store s) with
      | (Some e, st') =>
          (Err (Wrap (str "failed to initialize upload") e),
           {| store := st'; sm := Delete sm' uuid |})
      | (None, st') => (Ok uuid, {| store := st'; sm := sm' |})
      end
  end.

(** The first half of [WriteUploadChunk]: the scratch contents written
    so far, read back when the session says there are any. *)
Definition existingData (st : S) (uploadPath : list ascii) (session : UploadSession)
    : result (list ascii) :=
  if 0 <? BytesWritten session then
    match store_download uploadPath st with
    | Err e =>
        if bool_decide (e = ErrFileNotFound) then Ok []
        else Err (Wrap (str "failed to read existing upload") e)
    | Ok rc =>
        match ReadAll rc with
        | Err e => Err (Wrap (str "failed to read existing upload data") e)
        | Ok d => Ok d
        end
    end
  else Ok [].

Definition WriteUploadChunk (s : OCIStorage) (uuid : list ascii) (data : Reader)
    (now : Z) : result Z * OCIStorage :=
  match Get (sm s) uuid now with
  | (Err e, sm') => (Err e, {| store := store s; sm := sm' |})
  | (Ok session, sm') =>
      let uploadPath := UploadDataPath uuid in
      match existingData (store s) uploadPath session with
      | Err e => (Err e, {| store := store s; sm := sm' |})
      | Ok existing =>
          match ReadAll data with
          | Err e =>
              (Err (Wrap (str "failed to read upload chunk") e),
               {| store := store s; sm := sm' |})
          | Ok newData =>
              let combined := existing ++ newData in
              match store_upload uploadPath combined (store s) with
              | (Some e, st') =>
                  (Err (Wrap (str "failed to write upload chunk") e),
                   {| store := st'; sm := sm' |})
              | (None, st') =>
                  let totalSize := Z.of_nat (length combined) in
                  (Ok totalSize,
                   {| store := st'; sm := (UpdateBytes sm' uuid totalSize).2 |})
              end
          end
      end
  end.

Definition CompleteUpload (s : OCIStorage) (uuid : list ascii)
    (expectedDigest : DigestInfo) (now : Z) : result DigestInfo * OCIStorage :=
  match Get (sm s) uuid now with
  | (Err e, sm') => (Err e, {| store := store s; sm := sm' |})
  | (Ok _, sm') =>
      let uploadPath := UploadDataPath uuid in
      match store_download uploadPath (store s) with
      | Err e => (Err (Wrap (str "failed to read upload") e), {| store := store s; sm := sm' |})
      | Ok rc =>
          match ReadAllVerifying rc with
          | (Err e, _) =>
              (Err (Wrap (str "failed to read upload data") e),
               {| store := store s; sm := sm' |})
          | (Ok data, vr) =>
              match Verify vr expectedDigest with
              | Some e => (Err e, {| store := store s; sm := sm' |})
              | None =>
                  let blobPath := BlobDataPath expectedDigest in
                  match store_upload blobPath data (store s) with
                  | (Some e, st') =>
                      (Err (Wrap (str "failed to store blob") e),
                       {| store := st'; sm := sm' |})
                  | (None, st') =>
                      (Ok expectedDigest,
                       {| store := (store_delete uploadPath st').2;
                          sm := Delete sm' uuid |})
                  end
              end
          end
      end
  end.

Definition CancelUpload (s : OCIStorage) (uuid : list ascii) (now : Z)
    : option error * OCIStorage :=
  match Get (sm s) uuid now with
  | (Err e, sm') => (Some e, {| store := store s; sm := sm' |})
  | (Ok _, sm') =>
      (None, {| store := (store_delete (UploadDataPath uuid) (store s)).2;
                sm := Delete sm' uuid |})
  end.

Definition newline : ascii := "010"%char.

Definition defaultManifestType : list ascii :=
  str "application/vnd.oci.image.manifest.v1+json".

Definition PutManifest (s : OCIStorage) (name reference contentType data : list ascii)
    : result DigestInfo * OCIStorage :=
  match ReadAllVerifying (NewReader data) with
  | (Err e, _) => (Err (Wrap (str "failed to compute manifest digest") e), s)
  | (Ok _, vr) =>
      let digest := Digest vr in
      let blobPath := BlobDataPath digest in
      match store_upload blobPath data (store s) with
      | (Some e, st1) =>
          (Err (Wrap (str "failed to store manifest") e), {| store := st1; sm := sm s |})
      | (None, st1) =>
          let metaPath := ManifestRevisionLinkPath name digest in
          let metaContent := String_ digest ++ [newline] ++ contentType in
          match store_upload metaPath metaContent st1 with
          | (Some e, st2) =>
              (Err (Wrap (str "failed to store manifest revision link") e),
               {| store := st2; sm := sm s |})
          | (None, st2) =>
              if negb (isDigestReference reference) then
                let tagPath := ManifestTagCurrentLinkPath name reference in
                match store_upload tagPath metaContent st2 with
                | (Some e, st3) =>
                    (Err (Wrap (str "failed to store tag link") e),
                     {| store := st3; sm := sm s |})
                | (None, st3) => (Ok digest, {| store := st3; sm := sm s |})
                end
              else (Ok digest, {| store := st2; sm := sm s |})
          end
      end
  end.

(** [readManifestMeta]. *)
Definition readManifestMeta (s : OCIStorage) (name : list ascii) (digest : DigestInfo)
    : result (list ascii) :=
  match store_download (ManifestRevisionLinkPath name digest) (store s) with
  | Err e =>
      if bool_decide (e = ErrFileNotFound) then Err ErrManifestNotFound
      else Err (Wrap (str "failed to read manifest meta") e)
  | Ok rc =>
      match ReadAll rc with
      | Err e => Err (Wrap (str "failed to read manifest meta data") e)
      | Ok data =>
          match strings.SplitN2 data newline with
          | _ :: p1 :: _ => Ok (strings.TrimSpace p1)
          | _ => Ok []
          end
      end
  end.

(** The first half of [GetManifest]: the digest and the content type
    the reference resolves to. *)
Definition resolveReference (s : OCIStorage) (name reference : list ascii)
    : result (DigestInfo * list ascii) :=
  if isDigestReference reference then
    match ParseDigest reference with
    | Err e => Err e
    | Ok digest =>
        match readManifestMeta s name digest with
        | Err e => Err e
        | Ok ct => Ok (digest, ct)
        end
    end
  else
    match store_download (ManifestTagCurrentLinkPath name reference) (store s) with
    | Err e =>
        if bool_decide (e = ErrFileNotFound) then Err ErrManifestNotFound
        else Err (Wrap (str "failed to read tag") e)
    | Ok rc =>
        match ReadAll rc with
        | Err e => Err (Wrap (str "failed to read tag link") e)
        | Ok linkData =>
            let parts := strings.SplitN2 linkData newline in
            match ParseDigest (strings.TrimSpace (hd [] parts)) with
            | Err e => Err (Wrap (str "invalid digest in tag link") e)
            | Ok digest =>
                match parts with
                | _ :: p1 :: _ => Ok (digest, strings.TrimSpace p1)
                | _ => Ok (digest, [])
                end
            end
        end
    end.

(** [GetManifest]: the bytes, the digest and the content type. *)
Definition GetManifest (s : OCIStorage) (name reference : list ascii)
    : result (list ascii * DigestInfo * list ascii) :=
  match resolveReference s name reference with
  | Err e => Err e
  | Ok (digest, contentType) =>
      match store_download (BlobDataPath digest) (store s) with
      | Err e =>
          if bool_decide (e = ErrFileNotFound) then Err ErrManifestNotFound
          else Err (Wrap (str "failed to read manifest") e)
      | Ok rc =>
          match ReadAll rc with
          | Err e => Err (Wrap (str "failed to read manifest data") e)
          | Ok data =>
              let contentType :=
                if bytes_eqb contentType [] then defaultManifestType else contentType in
              Ok (data, digest, contentType)
          end
      end
  end.

Definition ManifestExists (s : OCIStorage) (name reference : list ascii)
    : result (DigestInfo * list ascii * Z) :=
  match GetManifest s name reference with
  | Err e => Err e
  | Ok (data, digest, contentType) => Ok (digest, contentType, Z.of_nat (length data))
  end.

Definition ListTags (s : OCIStorage) (name : list ascii) : result (list (list ascii)) :=
  match store_list (ManifestTagsDir name) (store s) with
  | Err _ => Ok []
  | Ok entries => Ok entries
  end.

(** The link payload [<digest>\n<content type>] of [PutManifest]. *)
Definition metaContent (d : DigestInfo) (contentType : list ascii) : list ascii :=
  String_ d ++ [newline] ++ contentType.

(** The store after the blob and the revision link of a manifest have
    been written. *)
Definition with_revision (st : S) (name contentType data : list ascii) : S :=
  let d := computeSHA256 data in
  (store_upload (ManifestRevisionLinkPath name d) (metaContent d contentType)
     (store_upload (BlobDataPath d) data st).2).2.

(** The content type [GetManifest] reports for a stored one: trimmed,
    and the default when nothing is left. *)
Definition reported_type (contentType : list ascii) : list ascii :=
  if bytes_eqb (strings.TrimSpace contentType) [] then defaultManifestType
  else strings.TrimSpace contentType.

(** An upload in progress: the session of [uuid] started at [started]
    and counts the bytes [acc], which are the scratch contents. *)
Definition uploading (s : OCIStorage) (uuid : list ascii) (started : Z)
    (acc : list ascii) : Prop :=
  (exists session,
     sessions (sm s) !! uuid = Some session /\
     StartedAt session = started /\
     BytesWritten session = Z.of_nat (length acc)) /\
  store_download (UploadDataPath uuid) (store s) = Ok (NewReader acc).

(** A client that pushes the chunks one after the other, each at the
    clock reading that comes with it, and stops at the first failure. *)
Fixpoint WriteChunks (s : OCIStorage) (uuid : list ascii)
    (chunks : list (list ascii * Z)) : result unit * OCIStorage :=
  match chunks with
  | [] => (Ok tt, s)
  | (c, now) :: rest =>
      match WriteUploadChunk s uuid (NewReader c) now with
      | (Err e, s') => (Err e, s')
      | (Ok _, s') => WriteChunks s' uuid rest
      end
  end.

(** The calls a client can make on the engine, with the clock reading
    and, for [InitiateUpload], the random bytes of the call. *)
Inductive call : Type :=
  | CallInitiate (repository : list ascii) (now : Z) (rnd : result (list ascii))
  | CallWrite (uuid : list ascii) (data : Reader) (now : Z)
  | CallComplete (uuid : list ascii) (expected : DigestInfo) (now : Z)
  | CallCancel (uuid : list ascii) (now : Z)
  | CallPutManifest (name reference contentType data : list ascii).

(** The error of a call, if any, and the engine afterwards. *)
Definition run_call (s : OCIStorage) (c : call) : option error * OCIStorage :=
  match c with
  | CallInitiate repository now rnd =>
      match InitiateUpload s repository now rnd with
      | (Err e, s') => (Some e, s') | (Ok _, s') => (None, s') end
  | CallWrite uuid data now =>
      match WriteUploadChunk s uuid data now with
      | (Err e, s') => (Some e, s') | (Ok _, s') => (None, s') end
  | CallComplete uuid expected now =>
      match CompleteUpload s uuid expected now with
      | (Err e, s') => (Some e, s') | (Ok _, s') => (None, s') end
  | CallCancel uuid now => CancelUpload s uuid now
  | CallPutManifest name reference contentType data =>
      match PutManifest s name reference contentType data with
      | (Err e, s') => (Some e, s') | (Ok _, s') => (None, s') end
  end.

Definition run_calls (s : OCIStorage) (cs : list call) : OCIStorage :=
  fold_left (fun s c => (run_call s c).2) cs s.

(** The call is on the upload [u]. *)
Definition call_on (u : list ascii) (c : call) : Prop :=
  match c with
  | CallWrite uuid _ _ | CallComplete uuid _ _ | CallCancel uuid _ => uuid = u
  | _ => False
  end.

(** The call does not draw [u] as a new UUID. *)
Definition draws_other (u : list ascii) (c : call) : Prop :=
  match c with
  | CallInitiate _ _ rnd => generateUUID rnd <> Ok u
  | _ => True
  end.

(** [rand.Read] fills the whole array: a call of [InitiateUpload] whose
    random source succeeds comes with 16 bytes. *)
Definition well_drawn (c : call) : Prop :=
  match c with
  | CallInitiate _ _ (Ok r) => length r = 16%nat
  | _ => True
  end.

End Engine.

Arguments OCIStorage S : clear implicits.

(** The registry of the tests: an empty store and a 30 minute timeout
    (in seconds here; the unit plays no role). *)
Definition emptyRegistry : OCIStorage MemStore :=
  NewOCIStorage ∅ (NewSessionManager 1800).

(** ** The protocol adapter (package handlers) *)

Module handlers.

Definition OCIErrorBlobUnknown : list ascii := str "BLOB_UNKNOWN".
Definition OCIErrorBlobUploadInvalid : list ascii := str "BLOB_UPLOAD_INVALID".
Definition OCIErrorBlobUploadUnknown : list ascii := str "BLOB_UPLOAD_UNKNOWN".
Definition OCIErrorDigestInvalid : list ascii := str "DIGEST_INVALID".
Definition OCIErrorManifestInvalid : list ascii := str "MANIFEST_INVALID".
Definition OCIErrorManifestUnknown : list ascii := str "MANIFEST_UNKNOWN".
Definition OCIErrorNameUnknown : list ascii := str "NAME_UNKNOWN".

Definition StatusOK : Z := 200.
Definition StatusCreated : Z := 201.
Definition StatusAccepted : Z := 202.
Definition StatusNoContent : Z := 204.
Definition StatusBadRequest : Z := 400.
Definition StatusNotFound : Z := 404.
Definition StatusInternalServerError : Z := 500.

(** What a handler writes: the status, the OCI error of the envelope
    (code and message) when [respondOCIError] is called, the value of
    Docker-Content-Digest when it is set, and the body bytes.  The other
    headers are not modelled. *)
Record Response : Type := mkResponse {
  Status : Z;
  OCIError : option (list ascii * list ascii);
  ContentDigest : option (list ascii);
  Body : list ascii;
}.

(** [respondOCIError]. *)
Definition respondOCIError (status : Z) (code : list ascii) (message : string) : Response :=
  {| Status := status; OCIError := Some (code, str message);
     ContentDigest := None; Body := [] |}.

Definition respond (status : Z) (digest : option (list ascii)) (body : list ascii)
    : Response :=
  {| Status := status; OCIError := None; ContentDigest := digest; Body := body |}.

Section Handlers.
Context {S : Type} `{BlobStorage S}.

(** [HeadBlob]; [digestStr] is the route variable {digest}. *)
Definition HeadBlob (h : OCIStorage S) (digestStr : list ascii) : Response :=
  match ParseDigest digestStr with
  | Err _ => respondOCIError StatusBadRequest OCIErrorDigestInvalid "invalid digest format"
  | Ok digest =>
      match GetBlobInfo h digest with
      | Err e =>
          if errors_Is e ErrBlobNotFound
          then respondOCIError StatusNotFound OCIErrorBlobUnknown "blob not found"
          else respondOCIError StatusInternalServerError OCIErrorBlobUnknown "internal error"
      | Ok (d, _) => respond StatusOK (Some (String_ d)) []
      end
  end.

(** [GetBlob] (the handler). *)
Definition GetBlob (h : OCIStorage S) (digestStr : list ascii) : Response :=
  match ParseDigest digestStr with
  | Err _ => respondOCIError StatusBadRequest OCIErrorDigestInvalid "invalid digest format"
  | Ok digest =>
      match GetBlob h digest with
      | Err e =>
          if errors_Is e ErrBlobNotFound
          then respondOCIError StatusNotFound OCIErrorBlobUnknown "blob not found"
          else respondOCIError StatusInternalServerError OCIErrorBlobUnknown "internal error"
      | Ok rc => respond StatusOK (Some (String_ digest)) (rd_data rc)
      end
  end.

(** [handleMonolithicUpload]; the three engine calls read the clock at
    [now], [now1] and [now2]. *)
Definition handleMonolithicUpload (h : OCIStorage S) (name digestStr : list ascii)
    (body : Reader) (now now1 now2 : Z) (rnd : result (list ascii))
    : Response * OCIStorage S :=
  match ParseDigest digestStr with
  | Err _ =>
      (respondOCIError StatusBadRequest OCIErrorDigestInvalid "invalid digest format", h)
  | Ok expectedDigest =>
      match InitiateUpload h name now rnd with
      | (Err _, h1) =>
          (respondOCIError StatusInternalServerError OCIErrorBlobUploadInvalid
             "failed to initiate upload", h1)
      | (Ok uuid, h1) =>
          match WriteUploadChunk h1 uuid body now1 with
          | (Err _, h2) =>
              (respondOCIError StatusInternalServerError OCIErrorBlobUploadInvalid
                 "failed to write data", h2)
          | (Ok _, h2) =>
              match CompleteUpload h2 uuid expectedDigest now2 with
              | (Err e, h3) =>
                  if errors_Is e ErrDigestMismatch
                  then (respondOCIError StatusBadRequest OCIErrorDigestInvalid
                          "digest mismatch", h3)
                  else (respondOCIError StatusInternalServerError
                          OCIErrorBlobUploadInvalid "failed to complete upload", h3)
              | (Ok digest, h3) => (respond StatusCreated (Some (String_ digest)) [], h3)
              end
          end
      end
  end.

(** [InitiateBlobUpload]; [digestParam] is the query parameter digest
    (empty when absent). *)
Definition InitiateBlobUpload (h : OCIStorage S) (name digestParam : list ascii)
    (body : Reader) (now now1 now2 : Z) (rnd : result (list ascii))
    : Response * OCIStorage S :=
  if negb (bytes_eqb digestParam []) then
    handleMonolithicUpload h name digestParam body now now1 now2 rnd
  else
    match InitiateUpload h name now rnd with
    | (Err _, h1) =>
        (respondOCIError StatusInternalServerError OCIErrorBlobUploadInvalid
           "failed to initiate upload", h1)
    | (Ok uuid, h1) => (respond StatusAccepted None [], h1)
    end.

(** The second half of [CompleteBlobUpload], from the call of
    [CompleteUpload] on. *)
Definition finishBlobUpload (h : OCIStorage S) (uuid : list ascii)
    (expectedDigest : DigestInfo) (now : Z) : Response * OCIStorage S :=
  match CompleteUpload h uuid expectedDigest now with
  | (Err e, h') =>
      if errors_Is e ErrUploadNotFound
      then (respondOCIError StatusNotFound OCIErrorBlobUploadUnknown "upload not found", h')
      else if errors_Is e ErrDigestMismatch
      then (respondOCIError StatusBadRequest OCIErrorDigestInvalid "digest mismatch", h')
      else (respondOCIError StatusInternalServerError OCIErrorBlobUploadInvalid
              "failed to complete upload", h')
  | (Ok digest, h') => (respond StatusCreated (Some (String_ digest)) [], h')
  end.

(** [CompleteBlobUpload]; [contentLength] is [r.ContentLength], and
    the two engine calls read the clock at [now] and [now1]. *)
Definition CompleteBlobUpload (h : OCIStorage S) (uuid digestStr : list ascii)
    (contentLength : Z) (body : Reader) (now now1 : Z) : Response * OCIStorage S :=
  if bytes_eqb digestStr [] then
    (respondOCIError StatusBadRequest OCIErrorDigestInvalid
       "digest query parameter required", h)
  else
    match ParseDigest digestStr with
    | Err _ =>
        (respondOCIError StatusBadRequest OCIErrorDigestInvalid "invalid digest format", h)
    | Ok expectedDigest =>
        if (0 <? contentLength) || (contentLength =? -1) then
          match WriteUploadChunk h uuid body now with
          | (Err e, h1) =>
              if negb (bool_decide (e = ErrUploadNotFound))
              then (respondOCIError StatusInternalServerError OCIErrorBlobUploadInvalid
                      "failed to write final chunk", h1)
              else (respondOCIError StatusNotFound OCIErrorBlobUploadUnknown
                      "upload not found", h1)
          | (Ok _, h1) => finishBlobUpload h1 uuid expectedDigest now1
          end
        else finishBlobUpload h uuid expectedDigest now1
    end.

(** [HeadManifest]. *)
Definition HeadManifest (h : OCIStorage S) (name reference : list ascii) : Response :=
  match ManifestExists h name reference with
  | Err e =>
      if errors_Is e ErrManifestNotFound
      then respondOCIError StatusNotFound OCIErrorManifestUnknown "manifest not found"
      else respondOCIError StatusInternalServerError OCIErrorManifestUnknown "internal error"
  | Ok (digest, _, _) => respond StatusOK (Some (String_ digest)) []
  end.

(** [GetManifest] (the handler). *)
Definition GetManifest (h : OCIStorage S) (name reference : list ascii) : Response :=
  match GetManifest h name reference with
  | Err e =>
      if errors_Is e ErrManifestNotFound
      then respondOCIError StatusNotFound OCIErrorManifestUnknown "manifest not found"
      else respondOCIError StatusInternalServerError OCIErrorManifestUnknown "internal error"
  | Ok (data, digest, _) => respond StatusOK (Some (String_ digest)) data
  end.

(** [TagsList]; the body is the list of tags of the JSON answer. *)
Definition TagsList (h : OCIStorage S) (name : list ascii)
    : Response * list (list ascii) :=
  match ListTags h name with
  | Err _ =>
      (respondOCIError StatusInternalServerError OCIErrorNameUnknown
         "failed to list tags", [])
  | Ok tags => (respond StatusOK None [], tags)
  end.

(** [PatchBlobUpload]. *)
Definition PatchBlobUpload (h : OCIStorage S) (uuid : list ascii) (body : Reader)
    (now : Z) : Response * OCIStorage S :=
  match WriteUploadChunk h uuid body now with
  | (Err e, h') =>
      if errors_Is e ErrUploadNotFound
      then (respondOCIError StatusNotFound OCIErrorBlobUploadUnknown "upload not found", h')
      else (respondOCIError StatusInternalServerError OCIErrorBlobUploadInvalid
              "failed to write chunk", h')
  | (Ok _, h') => (respond StatusAccepted None [], h')
  end.

(** [CancelBlobUpload]. *)
Definition CancelBlobUpload (h : OCIStorage S) (uuid : list ascii) (now : Z)
    : Response * OCIStorage S :=
  match CancelUpload h uuid now with
  | (Some e, h') =>
      if errors_Is e ErrUploadNotFound
      then (respondOCIError StatusNotFound OCIErrorBlobUploadUnknown "upload not found", h')
      else (respondOCIError StatusInternalServerError OCIErrorBlobUploadInvalid
              "failed to cancel upload", h')
  | (None, h') => (respond StatusNoContent None [], h')
  end.

(** [PutManifest] (the handler); [contentType] is the request header
    Content-Type (empty when absent). *)
Definition PutManifest (h : OCIStorage S) (name reference contentType : list ascii)
    (body : Reader) : Response * OCIStorage S :=
  let contentType :=
    if bytes_eqb contentType [] then str "application/vnd.oci.image.manifest.v1+json"
    else contentType in
  match ReadAll body with
  | Err _ =>
      (respondOCIError StatusBadRequest OCIErrorManifestInvalid "failed to read manifest", h)
  | Ok data =>
      match PutManifest h name reference contentType data with
      | (Err _, h') =>
          (respondOCIError StatusInternalServerError OCIErrorManifestInvalid
             "failed to store manifest", h')
      | (Ok digest, h') => (respond StatusCreated (Some (String_ digest)) [], h')
      end
  end.

End Handlers.
End handlers.

(** * Properties *)

(** ** Bytes and classes *)

Ltac byte_bool :=
  intros;
  unfold strings.isSpace3, strings.isSpace2, strings.asciiSpace, az09, af09,
    byte_in, byte_is in *;
  repeat match goal with
  | H : _ = false |- _ => apply not_true_iff_false in H
  | |- _ = false => apply not_true_iff_false; intro
  end;
  repeat first [ rewrite andb_true_iff in * | rewrite orb_true_iff in *
               | rewrite N.leb_le in * | rewrite N.eqb_eq in * ];
  try (unfold byte_val in *; lia).

Lemma af09_az09 c : af09 c = true -> az09 c = true.
Proof. byte_bool. Qed.

Lemma az09_not_space c : az09 c = true -> strings.asciiSpace c = false.
Proof. intros. byte_bool. Qed.

Lemma az09_low c : az09 c = true -> (byte_val c < 128)%N.
Proof. byte_bool. Qed.

Lemma az09_not_colon c : az09 c = true -> Ascii.eqb c colon = false.
Proof.
  intros Hc. apply Ascii.eqb_neq. intros ->. vm_compute in Hc. discriminate.
Qed.

Lemma isSpace2_high_l a b : strings.isSpace2 a b = true -> (128 <= byte_val a)%N.
Proof. byte_bool. Qed.
Lemma isSpace2_high_r a b : strings.isSpace2 a b = true -> (128 <= byte_val b)%N.
Proof. byte_bool. Qed.
Lemma isSpace3_high_l a b c : strings.isSpace3 a b c = true -> (128 <= byte_val a)%N.
Proof. byte_bool. Qed.
Lemma isSpace3_high_r a b c : strings.isSpace3 a b c = true -> (128 <= byte_val c)%N.
Proof. byte_bool. Qed.

(** ** strings.TrimSpace on strings with no white space at either end *)

Lemma az09_solid c : az09 c = true -> solid c.
Proof. split; [by apply az09_not_space | by apply az09_low]. Qed.

Lemma TrimLeftSpace_solid a s : solid a -> strings.TrimLeftSpace (a :: s) = a :: s.
Proof.
  intros [Hsp Hlow]. simpl. rewrite Hsp.
  destruct s as [|b [|c s]]; [done| |].
  - destruct (strings.isSpace2 a b) eqn:E; [|done].
    apply isSpace2_high_l in E. lia.
  - destruct (strings.isSpace2 a b) eqn:E.
    { apply isSpace2_high_l in E. lia. }
    destruct (strings.isSpace3 a b c) eqn:E3; [|done].
    apply isSpace3_high_l in E3. lia.
Qed.

Lemma TrimLeftSpaceRev_solid a s : solid a -> strings.TrimLeftSpaceRev (a :: s) = a :: s.
Proof.
  intros [Hsp Hlow]. simpl. rewrite Hsp.
  destruct s as [|b [|c s]]; [done| |].
  - destruct (strings.isSpace2 b a) eqn:E; [|done].
    apply isSpace2_high_r in E. lia.
  - destruct (strings.isSpace2 b a) eqn:E.
    { apply isSpace2_high_r in E. lia. }
    destruct (strings.isSpace3 c b a) eqn:E3; [|done].
    apply isSpace3_high_r in E3. lia.
Qed.

Lemma TrimSpace_solid a z s s0 :
  solid a -> solid z -> a :: s = s0 ++ [z] -> strings.TrimSpace (a :: s) = a :: s.
Proof.
  intros Ha Hz E. unfold strings.TrimSpace, strings.TrimRightSpace.
  rewrite TrimLeftSpace_solid by done.
  rewrite E, rev_app_distr.
  change (rev [z] ++ rev s0) with (z :: rev s0).
  rewrite TrimLeftSpaceRev_solid by done.
  change (z :: rev s0) with (rev [z] ++ rev s0).
  by rewrite <- rev_app_distr, rev_involutive.
Qed.

(** ** The digest pattern *)

Lemma matches_plus_class p s :
  matches (Plus (Class p)) s <-> s <> [] /\ forallb p s = true.
Proof.
  split.
  - remember (Plus (Class p)) as r eqn:Er. intros Hm.
    induction Hm as [| | |r s Hm _|r s1 s2 Hm1 _ Hm2 IH]; try discriminate.
    + injection Er as ->. inversion Hm; subst. simpl. by rewrite H0.
    + injection Er as ->. specialize (IH eq_refl) as [_ IH].
      inversion Hm1; subst. simpl. by rewrite H0.
  - intros [Hne Hall]. induction s as [|c s IH]; [done|].
    simpl in Hall. apply andb_true_iff in Hall as [Hc Hall].
    destruct s as [|c' s'].
    + apply MPlus1. by constructor.
    + change (c :: c' :: s') with ([c] ++ c' :: s').
      apply MPlusS; [by constructor|]. by apply IH.
Qed.

Lemma matches_digestRegexp s :
  matches digestRegexp s <-> exists alg hx, digest_shape s alg hx.
Proof.
  unfold digestRegexp, digest_shape. split.
  - intros Hm. inversion Hm as [| |r1 r2 s1 s2 H1 H2| |]; subst.
    inversion H2 as [| |r1 r2 s3 s4 H3 H4| |]; subst.
    inversion H3; subst.
    apply matches_plus_class in H1 as [? ?], H4 as [? ?].
    by exists s1, s4.
  - intros (alg & hx & -> & ? & ? & ? & ?).
    apply MCat; [by apply matches_plus_class|].
    change (colon :: hx) with ([colon] ++ hx).
    apply MCat; [constructor | by apply matches_plus_class].
Qed.

Lemma span_all p s : forallb p s = true -> span p s = (s, []).
Proof.
  induction s as [|c s IH]; [done|]. simpl. intros [Hc Hs]%andb_true_iff.
  by rewrite Hc, IH.
Qed.

Lemma span_stop p a c r :
  forallb p a = true -> p c = false -> span p (a ++ c :: r) = (a, c :: r).
Proof.
  intros Ha Hc. induction a as [|x a IH]; simpl.
  - by rewrite Hc.
  - simpl in Ha. apply andb_true_iff in Ha as [Hx Ha]. by rewrite Hx, IH.
Qed.

Lemma span_spec p s a r :
  span p s = (a, r) ->
  s = a ++ r /\ forallb p a = true /\ (r = [] \/ exists c r', r = c :: r' /\ p c = false).
Proof.
  revert a r. induction s as [|c s IH]; simpl; intros a r E.
  - injection E as <- <-. auto.
  - destruct (p c) eqn:Hc.
    + destruct (span p s) as [a' r'] eqn:E'. injection E as <- <-.
      destruct (IH _ _ eq_refl) as (-> & Ha & Hr). simpl. by rewrite Hc.
    + injection E as <- <-. split; [done|]. split; [done|]. right. eauto.
Qed.

Lemma FindStringSubmatch_shape s alg hx :
  FindStringSubmatch s = Some (alg, hx) <-> digest_shape s alg hx.
Proof.
  unfold FindStringSubmatch, digest_shape. split.
  - destruct (span az09 s) as [a r] eqn:E1.
    apply span_spec in E1 as (-> & Ha & _).
    destruct a as [|a0 a]; [done|]. destruct r as [|c rest]; [done|].
    destruct (Ascii.eqb c colon) eqn:Ec; [|done].
    apply Ascii.eqb_eq in Ec as ->.
    destruct (span af09 rest) as [h t] eqn:E2.
    apply span_spec in E2 as (-> & Hh & _).
    destruct h as [|h0 h]; [done|]. destruct t; [|done].
    intros [= <- <-]. rewrite app_nil_r. done.
  - intros (-> & Hne & Ha & Hhne & Hh).
    rewrite (span_stop az09 alg colon hx) by done.
    destruct alg as [|a0 a]; [done|].
    rewrite Ascii.eqb_refl, span_all by done.
    destruct hx; done.
Qed.

Lemma FindStringSubmatch_None s :
  FindStringSubmatch s = None <-> ~ matches digestRegexp s.
Proof.
  rewrite matches_digestRegexp. split.
  - intros E (alg & hx & Hs). apply FindStringSubmatch_shape in Hs. congruence.
  - intros Hn. destruct (FindStringSubmatch s) as [[alg hx]|] eqn:E; [|done].
    exfalso. apply Hn. exists alg, hx. by apply FindStringSubmatch_shape.
Qed.

Lemma forallb_last {A} (p : A -> bool) (s : list A) z :
  forallb p (s ++ [z]) = true -> p z = true.
Proof. rewrite forallb_app. simpl. intros [_ H]%andb_true_iff. by rewrite andb_true_r in H. Qed.

(** A string of the digest shape has no white space at its ends. *)
Lemma digest_shape_TrimSpace s alg hx : digest_shape s alg hx -> strings.TrimSpace s = s.
Proof.
  intros (-> & Hne & Ha & Hhne & Hh).
  destruct alg as [|a0 alg]; [done|].
  simpl in Ha. apply andb_true_iff in Ha as [Ha0 _].
  destruct (exists_last Hhne) as (h' & z & ->).
  apply forallb_last in Hh.
  simpl. apply (TrimSpace_solid a0 z _ (a0 :: alg ++ colon :: h')).
  - by apply az09_solid.
  - by apply az09_solid, af09_az09.
  - simpl. by rewrite <- app_assoc.
Qed.

Lemma ParseDigest_shape s alg hx :
  digest_shape (strings.TrimSpace s) alg hx ->
  ParseDigest s = Ok {| Algorithm := alg; Hex := hx |}.
Proof.
  intros Hs. unfold ParseDigest.
  apply FindStringSubmatch_shape in Hs. by rewrite Hs.
Qed.

(** C6: [ParseDigest] trims surrounding white space and then succeeds
    exactly when the trimmed string matches [^([a-z0-9]+):([a-f0-9]+)$],
    the digest it returns printing back to the trimmed string; otherwise
    it fails with an error that is [ErrInvalidDigest].  A string that
    matches the pattern has no surrounding white space, parses, and its
    digest prints back to the string itself. *)
Theorem ParseDigest_spec (s : list ascii) :
  (matches digestRegexp (strings.TrimSpace s) ->
     exists d, ParseDigest s = Ok d /\ String_ d = strings.TrimSpace s) /\
  (~ matches digestRegexp (strings.TrimSpace s) ->
     exists e, ParseDigest s = Err e /\ errors_Is e ErrInvalidDigest = true) /\
  (matches digestRegexp s ->
     strings.TrimSpace s = s /\ exists d, ParseDigest s = Ok d /\ String_ d = s).
Proof.
  assert (Hok : forall t, matches digestRegexp (strings.TrimSpace t) ->
     exists d, ParseDigest t = Ok d /\ String_ d = strings.TrimSpace t).
  { intros t (alg & hx & Hs)%matches_digestRegexp.
    eexists. split; [by apply ParseDigest_shape|].
    destruct Hs as (-> & _). done. }
  split; [apply Hok|]. split.
  - intros Hn%FindStringSubmatch_None. unfold ParseDigest. rewrite Hn.
    eexists. split; [done|]. done.
  - intros Hm. assert (Ht : strings.TrimSpace s = s).
    { apply matches_digestRegexp in Hm as (alg & hx & Hs).
      by eapply digest_shape_TrimSpace. }
    split; [done|]. rewrite <- Ht in Hm. apply Hok in Hm. by rewrite Ht in Hm.
Qed.

Lemma matches_digest_example :
  matches digestRegexp (str "sha256:abcd").
Proof.
  apply matches_digestRegexp. exists (str "sha256"), (str "abcd").
  by apply FindStringSubmatch_shape.
Qed.

Lemma ParseDigest_spec_witness :
  matches digestRegexp (str "sha256:abcd") /\
  (strings.TrimSpace (str "sha256:abcd") = str "sha256:abcd" /\
   exists d, ParseDigest (str "sha256:abcd") = Ok d /\ String_ d = str "sha256:abcd").
Proof.
  split; [exact matches_digest_example|].
  apply (ParseDigest_spec (str "sha256:abcd")), matches_digest_example.
Defined.

(** ** path.Clean and path.Join on paths that end in ordinary elements *)

Lemma split_nonempty sep s : split sep s <> [].
Proof.
  destruct s as [|c s]; simpl; [done|].
  destruct (Ascii.eqb c sep); [done|]. by destruct (split sep s).
Qed.

Lemma split_app_sep sep p q :
  split sep (p ++ sep :: q) = split sep p ++ split sep q.
Proof.
  induction p as [|c p IH]; simpl.
  - by rewrite Ascii.eqb_refl.
  - destruct (Ascii.eqb c sep); [by rewrite IH|].
    rewrite IH. pose proof (split_nonempty sep p).
    by destruct (split sep p).
Qed.

Lemma split_no_sep sep s :
  forallb (fun c => negb (Ascii.eqb c sep)) s = true -> split sep s = [s].
Proof.
  induction s as [|c s IH]; simpl; [done|].
  intros [Hc Hs]%andb_true_iff. apply negb_true_iff in Hc. by rewrite Hc, IH.
Qed.

Lemma plain_no_slash e :
  plain e -> forallb (fun c => negb (Ascii.eqb c path.slash)) e = true.
Proof.
  intros [_ He]. induction e as [|c e IH]; [done|]. simpl in *.
  apply andb_true_iff in He as [Hc He]. unfold plain_byte in Hc.
  apply andb_true_iff in Hc as [Hc _]. by rewrite Hc, IH.
Qed.

Lemma join_cons2 sep x y l : join sep (x :: y :: l) = x ++ sep ++ join sep (y :: l).
Proof. done. Qed.

Lemma join_app sep F G :
  F <> [] -> G <> [] -> join sep (F ++ G) = join sep F ++ sep ++ join sep G.
Proof.
  intros HF HG. induction F as [|x F IH]; [done|].
  destruct F as [|y F].
  - destruct G; [done|]. done.
  - change ((x :: y :: F) ++ G) with (x :: y :: (F ++ G)).
    rewrite !join_cons2. change (y :: F ++ G) with ((y :: F) ++ G).
    rewrite IH by done. by rewrite <- !app_assoc.
Qed.

Lemma split_join_plain es :
  Forall plain es -> es <> [] -> split path.slash (join [path.slash] es) = es.
Proof.
  intros Hes Hne. induction Hes as [|e es He Hes IH]; [done|].
  destruct es as [|e' es].
  - simpl. by apply split_no_sep, plain_no_slash.
  - rewrite join_cons2. change ([path.slash] ++ ?x) with (path.slash :: x).
    rewrite split_app_sep, IH by done.
    by rewrite split_no_sep by by apply plain_no_slash.
Qed.

Lemma plain_not_special e : plain e ->
  bytes_eqb e [] = false /\ bytes_eqb e (str ".") = false /\ bytes_eqb e (str "..") = false.
Proof.
  intros [Hne He]. unfold bytes_eqb.
  repeat split; apply bool_decide_eq_false; [done| |]; intros ->; vm_compute in He; done.
Qed.

Lemma clean_step_plain rooted out dd e :
  plain e -> path.clean_step rooted (out, dd) e = (e :: out, dd).
Proof.
  intros (E1 & E2 & E3)%plain_not_special. unfold path.clean_step.
  by rewrite E1, E2, E3.
Qed.

Lemma fold_clean_plain rooted es out dd :
  Forall plain es ->
  fold_left (path.clean_step rooted) es (out, dd) = (rev es ++ out, dd).
Proof.
  intros Hes. revert out. induction Hes as [|e es He Hes IH]; intros out; [done|].
  cbn [fold_left]. rewrite clean_step_plain by done. rewrite IH.
  cbn [rev]. by rewrite <- app_assoc.
Qed.

Lemma join_plain_nonempty es : Forall plain es -> es <> [] -> join [path.slash] es <> [].
Proof.
  intros Hes Hne. destruct Hes as [|e es [He _] _]; [done|].
  destruct es; simpl; [done|]. by destruct e.
Qed.

(** Ordinary elements at the end of a path survive [Clean] verbatim. *)
Lemma Clean_suffix p es :
  Forall plain es -> es <> [] ->
  exists pre, path.Clean (p ++ path.slash :: join [path.slash] es) = pre ++ join [path.slash] es.
Proof.
  intros Hes Hne. unfold path.Clean.
  destruct (p ++ path.slash :: join [path.slash] es) as [|c rest] eqn:E.
  { by destruct p. }
  rewrite <- E. clear E rest.
  rewrite split_app_sep, split_join_plain, fold_left_app by done.
  destruct (fold_left (path.clean_step (Ascii.eqb c path.slash)) (split path.slash p) ([], 0%nat))
    as [out dd].
  rewrite fold_clean_plain by done.
  rewrite rev_app_distr, rev_involutive.
  assert (Hj : exists pre, join [path.slash] (rev out ++ es) = pre ++ join [path.slash] es).
  { destruct (rev out) as [|x l] eqn:Er; [by exists []|].
    rewrite join_app by done. eexists. by rewrite app_assoc. }
  destruct Hj as [pre Hj]. rewrite Hj.
  destruct (Ascii.eqb c path.slash).
  - by exists (path.slash :: pre).
  - destruct (rev es ++ out) eqn:Eo; [|by exists pre].
    apply app_eq_nil in Eo as [Eo _]. destruct es; [done|].
    simpl in Eo. by apply app_eq_nil in Eo as [_ ?].
Qed.

(** A path made of ordinary elements only is already clean. *)
Lemma Clean_plain es :
  Forall plain es -> es <> [] -> path.Clean (join [path.slash] es) = join [path.slash] es.
Proof.
  intros Hes Hne. unfold path.Clean.
  destruct (join [path.slash] es) as [|c rest] eqn:E.
  { by apply join_plain_nonempty in E. }
  assert (Hc : Ascii.eqb c path.slash = false).
  { destruct Hes as [|e es' He _]; [done|].
    apply plain_no_slash in He as Hs. destruct He as [He _].
    destruct e as [|c0 e]; [done|].
    assert (c = c0) as -> by (destruct es'; simpl in E; congruence).
    simpl in Hs. apply andb_true_iff in Hs as [Hs _]. by apply negb_true_iff in Hs. }
  rewrite Hc, <- E, split_join_plain, fold_clean_plain by done.
  rewrite app_nil_r, rev_involutive.
  destruct (rev es) eqn:Er; [|done].
  apply (f_equal (@rev _)) in Er. rewrite rev_involutive in Er. by subst.
Qed.

Lemma Join_filter elem F :
  filter (fun e => e <> []) elem = F -> F <> [] ->
  path.Join elem = path.Clean (join [path.slash] F).
Proof. unfold path.Join. intros -> HF. by destruct F. Qed.

(** [Join] of elements of which one before the end is not empty, followed
    by ordinary elements: these end the result. *)
Lemma Join_suffix elem es :
  filter (fun e => e <> []) elem <> [] -> Forall plain es -> es <> [] ->
  exists pre, path.Join (elem ++ es) = pre ++ join [path.slash] es.
Proof.
  intros HF Hes Hne.
  assert (Hf : filter (fun e => e <> []) es = es).
  { clear Hne. induction Hes as [|e es [He _] _ IH]; [done|].
    by rewrite filter_cons_True, IH. }
  rewrite (Join_filter _ (filter (fun e => e <> []) elem ++ es)).
  - rewrite join_app by done. by apply Clean_suffix.
  - by rewrite filter_app, Hf.
  - intros [? _]%app_eq_nil. done.
Qed.

Lemma Join_suffix_joined elem es :
  filter (fun e => e <> []) elem <> [] -> Forall plain es -> es <> [] ->
  exists pre, path.Join (elem ++ [join [path.slash] es]) = pre ++ join [path.slash] es.
Proof.
  intros HF Hes Hne.
  rewrite (Join_filter _ (filter (fun e => e <> []) elem ++ [join [path.slash] es])).
  - rewrite join_app by done.
    change (join [path.slash] [join [path.slash] es]) with (join [path.slash] es).
    by apply Clean_suffix.
  - rewrite filter_app. f_equal.
    rewrite filter_cons_True by by apply join_plain_nonempty. done.
  - intros [? _]%app_eq_nil. done.
Qed.

(** ** Hexadecimal output *)

Lemma hexdigit_af09 n : (n < 16)%N -> af09 (hexdigit n) = true.
Proof.
  intros Hn. unfold hexdigit, af09, byte_in, byte_val.
  destruct (N.ltb_spec n 10); rewrite N_ascii_embedding by lia;
    repeat first [ rewrite andb_true_iff | rewrite orb_true_iff | rewrite N.leb_le ]; lia.
Qed.

Lemma byte_val_bound c : (byte_val c < 256)%N.
Proof. apply N_ascii_bounded. Qed.

Lemma Sprintf_x_af09 b : forallb af09 (Sprintf_x b) = true.
Proof.
  induction b as [|c b IH]; [done|]. unfold Sprintf_x in *. cbn [flat_map app forallb].
  pose proof (byte_val_bound c).
  rewrite !hexdigit_af09, IH; [done| |].
  - apply N.mod_lt. lia.
  - apply N.Div0.div_lt_upper_bound. lia.
Qed.

Lemma Sprintf_x_nonempty b : b <> [] -> Sprintf_x b <> [].
Proof. by destruct b. Qed.

Lemma Sum256_nonempty data : sha256.Sum256 data <> [].
Proof.
  unfold sha256.Sum256.
  destruct (sha256.blocks _ _ _) as [[[[[[[a b] c] d] e] f] g] h]. done.
Qed.

Lemma af09_plain_byte c : af09 c = true -> plain_byte c = true.
Proof.
  intros Hc. unfold plain_byte. apply andb_true_iff.
  split; apply negb_true_iff, Ascii.eqb_neq; intros ->; vm_compute in Hc; done.
Qed.

Lemma forallb_impl {A} (p q : A -> bool) l :
  (forall x, p x = true -> q x = true) -> forallb p l = true -> forallb q l = true.
Proof.
  intros Hpq. induction l as [|x l IH]; [done|]. simpl.
  intros [Hx Hl]%andb_true_iff. by rewrite Hpq, IH.
Qed.

Lemma forallb_take {A} (p : A -> bool) n l :
  forallb p l = true -> forallb p (take n l) = true.
Proof.
  revert n. induction l as [|x l IH]; intros [|n]; simpl; try done.
  intros [Hx Hl]%andb_true_iff. by rewrite Hx, IH.
Qed.

Lemma hex_plain hx : hx <> [] -> forallb af09 hx = true -> plain hx.
Proof. intros ? ?. split; [done|]. eapply forallb_impl; [apply af09_plain_byte|done]. Qed.

Lemma sha_Hex_plain data : plain (Hex (computeSHA256 data)).
Proof.
  apply hex_plain; [apply Sprintf_x_nonempty, Sum256_nonempty | apply Sprintf_x_af09].
Qed.

Lemma sha_ShortHex_plain data : plain (ShortHex (computeSHA256 data)).
Proof.
  unfold ShortHex. destruct (_ <? _)%nat; [apply sha_Hex_plain|].
  pose proof (sha_Hex_plain data) as [Hne Hall].
  apply hex_plain.
  - by destruct (Hex (computeSHA256 data)).
  - apply forallb_take, Sprintf_x_af09.
Qed.

Lemma uuid_byte_plain c : uuid_byte c = true -> plain_byte c = true.
Proof.
  unfold uuid_byte. intros [H|H]%orb_true_iff; [by apply af09_plain_byte|].
  apply Ascii.eqb_eq in H as ->. done.
Qed.

Lemma zero_pad_uuid w s :
  forallb af09 s = true -> forallb uuid_byte (zero_pad w s) = true.
Proof.
  intros Hs. unfold zero_pad. rewrite forallb_app. apply andb_true_iff. split.
  - induction (w - length s)%nat; [done|]. simpl. done.
  - eapply forallb_impl; [|done]. intros x Hx. unfold uuid_byte. by rewrite Hx.
Qed.

Lemma generateUUID_bytes rnd u :
  generateUUID rnd = Ok u -> u <> [] /\ forallb uuid_byte u = true.
Proof.
  unfold generateUUID. destruct rnd as [r|e]; [|done]. intros [= <-]. split.
  - intros E. apply (f_equal length) in E. rewrite !length_app in E. simpl in E. lia.
  - repeat (rewrite forallb_app, zero_pad_uuid by apply Sprintf_x_af09;
            cbn [forallb app str list_ascii_of_string]).
    rewrite zero_pad_uuid by apply Sprintf_x_af09. reflexivity.
Qed.

Lemma generateUUID_plain rnd u : generateUUID rnd = Ok u -> plain u.
Proof.
  intros [Hne Hall]%generateUUID_bytes. split; [done|].
  eapply forallb_impl; [apply uuid_byte_plain|done].
Qed.

(** ** The path layout *)

Ltac plain_lit := split; [done | vm_compute; reflexivity].

Ltac plain_list :=
  repeat match goal with
  | |- Forall _ (_ :: _) => constructor
  | |- Forall _ [] => constructor
  end;
  try plain_lit.

Lemma filter_head_nonempty (e : list ascii) l :
  e <> [] -> filter (fun e => e <> []) (e :: l) <> [].
Proof. intros. by rewrite filter_cons_True. Qed.

Lemma BlobDataPath_data d : exists pre, BlobDataPath d = pre ++ str "data".
Proof.
  unfold BlobDataPath.
  apply (Join_suffix [str "v2/blobs"; Algorithm d; ShortHex d; Hex d] [str "data"]).
  - by apply filter_head_nonempty.
  - plain_list.
  - done.
Qed.

Lemma ManifestRevisionLinkPath_link name d :
  exists pre, ManifestRevisionLinkPath name d = pre ++ str "link".
Proof.
  unfold ManifestRevisionLinkPath.
  apply (Join_suffix [str "v2/repositories"; name; str "_manifests/revisions";
                      Algorithm d; Hex d] [str "link"]).
  - by apply filter_head_nonempty.
  - plain_list.
  - done.
Qed.

Lemma ManifestRevisionLinkPath_hex name d :
  plain (Hex d) ->
  exists pre, ManifestRevisionLinkPath name d = pre ++ Hex d ++ str "/link".
Proof.
  intros Hd. unfold ManifestRevisionLinkPath.
  apply (Join_suffix [str "v2/repositories"; name; str "_manifests/revisions"; Algorithm d]
                     [Hex d; str "link"]).
  - by apply filter_head_nonempty.
  - plain_list. done.
  - done.
Qed.

Lemma ManifestTagCurrentLinkPath_suffix name tag :
  exists pre, ManifestTagCurrentLinkPath name tag = pre ++ str "current/link".
Proof.
  unfold ManifestTagCurrentLinkPath.
  apply (Join_suffix_joined [str "v2/repositories"; name; str "_manifests/tags"; tag]
                            [str "current"; str "link"]).
  - by apply filter_head_nonempty.
  - plain_list.
  - done.
Qed.

Lemma filter_nonempty_id (es : list (list ascii)) :
  Forall (fun e => e <> []) es -> filter (fun e => e <> []) es = es.
Proof.
  induction 1 as [|e es He _ IH]; [done|]. by rewrite filter_cons_True, IH.
Qed.

Lemma UploadDataPath_plain u :
  plain u -> UploadDataPath u = str "v2/uploads/" ++ u ++ str "/data".
Proof.
  intros Hu. unfold UploadDataPath.
  rewrite (Join_filter _ [str "v2/uploads"; u; str "data"]).
  - change (join [path.slash] [str "v2/uploads"; u; str "data"])
      with (join [path.slash] [str "v2"; str "uploads"; u; str "data"]).
    rewrite Clean_plain; [done| |done].
    plain_list. apply Hu.
  - apply filter_nonempty_id. repeat constructor; try done. apply Hu.
  - done.
Qed.

Lemma BlobDataPath_sha data :
  let d := computeSHA256 data in
  BlobDataPath d = str "v2/blobs/sha256/" ++ ShortHex d ++ str "/" ++ Hex d ++ str "/data".
Proof.
  intros d. unfold BlobDataPath.
  pose proof (sha_Hex_plain data) as Hh. pose proof (sha_ShortHex_plain data) as Hs.
  rewrite (Join_filter _ [str "v2/blobs"; str "sha256"; ShortHex d; Hex d; str "data"]).
  - change (join [path.slash] [str "v2/blobs"; str "sha256"; ShortHex d; Hex d; str "data"])
      with (join [path.slash] [str "v2"; str "blobs"; str "sha256"; ShortHex d; Hex d; str "data"]).
    rewrite Clean_plain; [done| |done].
    plain_list; [apply Hs|apply Hh].
  - apply filter_nonempty_id. repeat constructor; try done; [apply Hs|apply Hh].
  - done.
Qed.

Lemma last_byte_differs {A} (pre pre' : list A) x y a b :
  a <> b -> pre ++ x ++ [a] <> pre' ++ y ++ [b].
Proof.
  intros Hab E. rewrite !app_assoc in E. apply app_inj_tail in E as [_ ?]. done.
Qed.

Lemma blob_ne_revision d name d' : BlobDataPath d <> ManifestRevisionLinkPath name d'.
Proof.
  destruct (BlobDataPath_data d) as [p1 ->].
  destruct (ManifestRevisionLinkPath_link name d') as [p2 ->].
  apply (last_byte_differs p1 p2 (str "dat") (str "lin")). done.
Qed.

Lemma blob_ne_tag d name tag : BlobDataPath d <> ManifestTagCurrentLinkPath name tag.
Proof.
  destruct (BlobDataPath_data d) as [p1 ->].
  destruct (ManifestTagCurrentLinkPath_suffix name tag) as [p2 ->].
  apply (last_byte_differs p1 p2 (str "dat") (str "current/lin")). done.
Qed.

Lemma revision_ne_tag name d name' tag :
  Hex d <> [] -> forallb af09 (Hex d) = true ->
  ManifestRevisionLinkPath name d <> ManifestTagCurrentLinkPath name' tag.
Proof.
  intros Hne Hall.
  destruct (ManifestRevisionLinkPath_hex name d) as [p1 ->]; [by apply hex_plain|].
  destruct (ManifestTagCurrentLinkPath_suffix name' tag) as [p2 ->].
  destruct (exists_last Hne) as (h & z & Eh). rewrite Eh in *.
  apply forallb_last in Hall.
  intros E.
  change (str "current/link") with (str "curren" ++ str "t/link") in E.
  rewrite <- (app_assoc h [z]), !app_assoc in E.
  rewrite <- (app_assoc (p1 ++ h) [z]) in E.
  apply app_inj_2 in E as [_ E]; [|reflexivity].
  injection E as ->. vm_compute in Hall. done.
Qed.

Lemma upload_ne_blob u data :
  plain u -> UploadDataPath u <> BlobDataPath (computeSHA256 data).
Proof.
  intros Hu. rewrite UploadDataPath_plain, BlobDataPath_sha by done. done.
Qed.

(** ** The session manager *)

Lemma Delete_absent sm uuid : sessions sm !! uuid = None -> Delete sm uuid = sm.
Proof. destruct sm as [m t]. unfold Delete. simpl. intros E. by rewrite delete_id. Qed.

Lemma Get_live sm uuid now session :
  sessions sm !! uuid = Some session -> now - StartedAt session <= timeout sm ->
  Get sm uuid now = (Ok session, sm).
Proof.
  intros E Ht. unfold Get. rewrite E.
  destruct (Z.ltb_spec (timeout sm) (now - StartedAt session)); [lia|done].
Qed.

Lemma Get_dead sm uuid now :
  sessions sm !! uuid = None \/
  (exists session, sessions sm !! uuid = Some session /\ timeout sm < now - StartedAt session) ->
  Get sm uuid now = (Err ErrUploadNotFound, Delete sm uuid).
Proof.
  unfold Get. intros [E|(session & E & Ht)]; rewrite E.
  - by rewrite Delete_absent.
  - destruct (Z.ltb_spec (timeout sm) (now - StartedAt session)); [done|lia].
Qed.

(** C7: [SessionManager.Get] returns the stored session exactly when the
    UUID is in the table and [now - StartedAt] is at most the timeout, and
    then leaves the table alone; otherwise it fails with
    [ErrUploadNotFound] and the entry, if there was one, is removed while
    every other entry stays.  In particular a session created at
    [started] and read after the timeout has elapsed is not found. *)
Theorem Get_spec (sm : SessionManager) (uuid : list ascii) (now : Z) :
  (forall session,
     (Get sm uuid now).1 = Ok session <->
     sessions sm !! uuid = Some session /\ now - StartedAt session <= timeout sm) /\
  (forall session,
     sessions sm !! uuid = Some session -> now - StartedAt session <= timeout sm ->
     Get sm uuid now = (Ok session, sm)) /\
  ((sessions sm !! uuid = None \/
    exists session, sessions sm !! uuid = Some session /\ timeout sm < now - StartedAt session) ->
     Get sm uuid now = (Err ErrUploadNotFound, Delete sm uuid) /\
     sessions (Delete sm uuid) !! uuid = None /\
     forall u, u <> uuid -> sessions (Delete sm uuid) !! u = sessions sm !! u) /\
  (forall repository rnd started u sm1,
     Create sm repository started rnd = (Ok u, sm1) ->
     timeout sm < now - started ->
     (Get sm1 u now).1 = Err ErrUploadNotFound /\ sessions (Get sm1 u now).2 !! u = None).
Proof.
  split; [|split; [|split]].
  - intros session. split.
    + unfold Get. destruct (sessions sm !! uuid) as [s|] eqn:E; [|done].
      destruct (Z.ltb_spec (timeout sm) (now - StartedAt s)); [done|].
      simpl. intros [= ->]. done.
    + intros [E Ht]. by rewrite (Get_live _ _ _ session).
  - apply Get_live.
  - intros Hd. split; [by apply Get_dead|]. simpl. split.
    + apply lookup_delete_eq.
    + intros u Hu. by apply lookup_delete_ne.
  - intros repository rnd started u sm1 Hc Ht. unfold Create in Hc.
    destruct (generateUUID rnd) as [u'|e]; [|done]. injection Hc as <- <-.
    rewrite Get_dead.
    + simpl. split; [done|]. apply lookup_delete_eq.
    + right. eexists. simpl. rewrite lookup_insert_eq. split; [done|]. simpl. done.
Qed.

Lemma Get_spec_witness :
  let sm := (Create (NewSessionManager 1800) (str "myrepo") 100 (Ok (repeat "001"%char 16))).2 in
  let u := str "01010101-0101-4101-8101-010101010101" in
  Get sm u 2000 = (Err ErrUploadNotFound, Delete sm u) /\
  sessions (Delete sm u) !! u = None /\
  forall u', u' <> u -> sessions (Delete sm u) !! u' = sessions sm !! u'.
Proof.
  intros sm u.
  apply (Get_spec sm u 2000). right.
  exists {| UUID := u; Repository := str "myrepo"; StartedAt := 100; BytesWritten := 0 |}.
  split; [|simpl; lia].
  subst sm u. simpl. apply lookup_insert_eq.
Defined.

(** C8: [UpdateBytes] on a present UUID sets [BytesWritten] to [n] and
    keeps the UUID, the repository and [StartedAt] of the session, the
    timeout and every other entry, so that the session expires at the
    same instants as before; on an absent UUID it fails with
    [ErrUploadNotFound] and the manager is unchanged. *)
Theorem UpdateBytes_spec (sm : SessionManager) (uuid : list ascii) (n : Z) :
  (forall session, sessions sm !! uuid = Some session ->
     exists sm',
       UpdateBytes sm uuid n = (None, sm') /\
       sessions sm' !! uuid =
         Some {| UUID := UUID session; Repository := Repository session;
                 StartedAt := StartedAt session; BytesWritten := n |} /\
       timeout sm' = timeout sm /\
       (forall u, u <> uuid -> sessions sm' !! u = sessions sm !! u) /\
       (forall now, (Get sm' uuid now).1 = Err ErrUploadNotFound <->
                    (Get sm uuid now).1 = Err ErrUploadNotFound)) /\
  (sessions sm !! uuid = None -> UpdateBytes sm uuid n = (Some ErrUploadNotFound, sm)).
Proof.
  split.
  - intros session E. unfold UpdateBytes. rewrite E. eexists. split; [done|]. simpl.
    split; [apply lookup_insert_eq|]. split; [done|]. split.
    + intros u Hu. by apply lookup_insert_ne.
    + intros now. unfold Get. simpl. rewrite lookup_insert_eq, E. simpl.
      by destruct (timeout sm <? now - StartedAt session).
  - intros E. unfold UpdateBytes. by rewrite E.
Qed.

Lemma UpdateBytes_spec_witness :
  let sm := (Create (NewSessionManager 1800) (str "myrepo") 100 (Ok (repeat "001"%char 16))).2 in
  let u := str "01010101-0101-4101-8101-010101010101" in
  exists sm',
    UpdateBytes sm u 1024 = (None, sm') /\
    sessions sm' !! u =
      Some {| UUID := u; Repository := str "myrepo"; StartedAt := 100; BytesWritten := 1024 |} /\
    timeout sm' = timeout sm /\
    (forall u', u' <> u -> sessions sm' !! u' = sessions sm !! u') /\
    (forall now, (Get sm' u now).1 = Err ErrUploadNotFound <->
                 (Get sm u now).1 = Err ErrUploadNotFound).
Proof.
  intros sm u.
  apply (proj1 (UpdateBytes_spec sm u 1024)
           {| UUID := u; Repository := str "myrepo"; StartedAt := 100; BytesWritten := 0 |}).
  subst sm u. simpl. apply lookup_insert_eq.
Defined.

(** ** The in-memory store honours the contract *)

#[global] Instance MemStore_reliable : ReliableStore MemStore.
Proof.
  split; intros; cbn; unfold MemStore in *.
  - done.
  - by rewrite lookup_insert_eq.
  - by rewrite lookup_insert_ne.
  - by rewrite lookup_delete_ne.
Qed.

(** ** The engine *)

Lemma bytes_eqb_refl a : bytes_eqb a a = true.
Proof. by apply bool_decide_eq_true. Qed.

Lemma Verify_ok data :
  Verify {| hashed := data; size := Z.of_nat (length data) |} (computeSHA256 data) = None.
Proof. unfold Verify. simpl. by rewrite !bytes_eqb_refl. Qed.

Lemma Verify_mismatch vr expected :
  expected <> Digest vr ->
  exists e, Verify vr expected = Some e /\ errors_Is e ErrDigestMismatch = true.
Proof.
  intros Hne. unfold Verify.
  destruct (negb (bytes_eqb (Algorithm (Digest vr)) (Algorithm expected))
            || negb (bytes_eqb (Hex (Digest vr)) (Hex expected))) eqn:E.
  - eexists. split; [done|]. done.
  - exfalso. apply Hne. apply orb_false_iff in E as [E1 E2].
    apply negb_false_iff, bool_decide_eq_true in E1, E2.
    destruct expected, (Digest vr). simpl in *. congruence.
Qed.

Section EngineFacts.
Context {S : Type} `{BlobStorage S}.

(** C2: for an active upload (session present and not expired, scratch
    object readable with contents [scratch]) and an expected digest other
    than the sha256 of the scratch, [CompleteUpload] fails with an error
    that is [ErrDigestMismatch] and the engine is left exactly as it was:
    same store (scratch kept, no blob written) and same session table. *)
Theorem CompleteUpload_mismatch (s : OCIStorage S) (uuid : list ascii)
    (expected : DigestInfo) (now : Z) (session : UploadSession)
    (rc : Reader) (scratch : list ascii) :
  sessions (sm s) !! uuid = Some session ->
  now - StartedAt session <= timeout (sm s) ->
  store_download (UploadDataPath uuid) (store s) = Ok rc ->
  ReadAll rc = Ok scratch ->
  expected <> computeSHA256 scratch ->
  exists e,
    CompleteUpload s uuid expected now = (Err e, s) /\
    errors_Is e ErrDigestMismatch = true.
Proof.
  intros Hs Ht Hd Hr Hne. unfold CompleteUpload.
  rewrite (Get_live _ _ _ session), Hd by done.
  unfold ReadAllVerifying. rewrite Hr.
  assert (Hdata : rd_data rc = scratch).
  { unfold ReadAll in Hr. destruct (rd_err rc); congruence. }
  destruct (Verify_mismatch {| hashed := rd_data rc;
                               size := Z.of_nat (length (rd_data rc)) |} expected)
    as (e & -> & He).
  { unfold Digest. simpl. by rewrite Hdata. }
  exists e. by destruct s.
Qed.

(** C5: whatever error the store reports when listing the tags
    directory, a missing directory or any other failure, [ListTags]
    returns the empty list and no error, and the handler answers 200 with
    no tags: failures other than the missing directory are swallowed too. *)
Theorem ListTags_swallows_errors (s : OCIStorage S) (name : list ascii) (e : error) :
  store_list (ManifestTagsDir name) (store s) = Err e ->
  ListTags s name = Ok [] /\
  handlers.TagsList s name = (handlers.respond handlers.StatusOK None [], []).
Proof.
  intros E. unfold handlers.TagsList, ListTags. by rewrite E.
Qed.

Lemma ListTags_entries (s : OCIStorage S) (name : list ascii) entries :
  store_list (ManifestTagsDir name) (store s) = Ok entries ->
  ListTags s name = Ok entries.
Proof. intros E. unfold ListTags. by rewrite E. Qed.

Lemma errors_Is_invalid_digest msg target :
  target <> ErrInvalidDigest -> (forall m e, target <> Wrap m e) ->
  errors_Is (Wrap msg ErrInvalidDigest) target = false.
Proof.
  intros H1 H2. simpl.
  rewrite !bool_decide_eq_false_2; [done|congruence|].
  intros E. by apply (H2 msg ErrInvalidDigest).
Qed.

Lemma blob_handlers_invalid_digest (h : OCIStorage S) (digestStr : list ascii) e :
  ParseDigest digestStr = Err e ->
  let bad := handlers.respondOCIError handlers.StatusBadRequest
               handlers.OCIErrorDigestInvalid "invalid digest format" in
  handlers.HeadBlob h digestStr = bad /\
  handlers.GetBlob h digestStr = bad /\
  (forall name body now now1 now2 rnd,
     digestStr <> [] ->
     handlers.InitiateBlobUpload h name digestStr body now now1 now2 rnd = (bad, h)) /\
  (forall uuid len body now now1,
     digestStr <> [] ->
     handlers.CompleteBlobUpload h uuid digestStr len body now now1 = (bad, h)).
Proof.
  intros E bad.
  unfold handlers.HeadBlob, handlers.GetBlob, handlers.InitiateBlobUpload,
    handlers.handleMonolithicUpload, handlers.CompleteBlobUpload.
  rewrite E. repeat split; try done.
  - intros name body now now1 now2 rnd Hne. unfold bytes_eqb.
    by rewrite bool_decide_eq_false_2.
  - intros uuid len body now now1 Hne. unfold bytes_eqb.
    by rewrite bool_decide_eq_false_2.
Qed.

(** C4: on a manifest reference that contains a colon and does not parse
    as a digest, the engine fails with [ErrInvalidDigest], and the
    manifest handlers (GET and HEAD) answer 500 MANIFEST_UNKNOWN, whereas
    the blob handler answers 400 DIGEST_INVALID on the same string. *)
Theorem manifest_handlers_invalid_digest (h : OCIStorage S) (name reference : list ascii) :
  isDigestReference reference = true ->
  ~ matches digestRegexp (strings.TrimSpace reference) ->
  (exists e, GetManifest h name reference = Err e /\ errors_Is e ErrInvalidDigest = true) /\
  handlers.GetManifest h name reference =
    handlers.respondOCIError handlers.StatusInternalServerError
      handlers.OCIErrorManifestUnknown "internal error" /\
  handlers.HeadManifest h name reference =
    handlers.respondOCIError handlers.StatusInternalServerError
      handlers.OCIErrorManifestUnknown "internal error" /\
  handlers.HeadBlob h reference =
    handlers.respondOCIError handlers.StatusBadRequest
      handlers.OCIErrorDigestInvalid "invalid digest format".
Proof.
  intros Hd Hn.
  assert (Hp : ParseDigest reference = Err (Wrap (strings.TrimSpace reference) ErrInvalidDigest)).
  { unfold ParseDigest. apply FindStringSubmatch_None in Hn. by rewrite Hn. }
  assert (Hg : GetManifest h name reference
               = Err (Wrap (strings.TrimSpace reference) ErrInvalidDigest)).
  { unfold GetManifest, resolveReference. by rewrite Hd, Hp. }
  split; [eexists; split; [exact Hg|done]|].
  unfold handlers.GetManifest, handlers.HeadManifest, ManifestExists.
  rewrite Hg, errors_Is_invalid_digest by done.
  repeat split; try done.
  by apply (blob_handlers_invalid_digest h reference _ Hp).
Qed.

End EngineFacts.

Lemma manifest_handlers_invalid_digest_witness :
  let h : OCIStorage MemStore := NewOCIStorage ∅ (NewSessionManager 1800) in
  handlers.GetManifest h (str "myrepo") (str "sha256:XYZ") =
    handlers.respondOCIError handlers.StatusInternalServerError
      handlers.OCIErrorManifestUnknown "internal error".
Proof.
  intros h.
  refine (proj1 (proj2 (manifest_handlers_invalid_digest h (str "myrepo") (str "sha256:XYZ") _ _))).
  - reflexivity.
  - apply FindStringSubmatch_None. reflexivity.
Defined.

Lemma ListTags_swallows_errors_witness :
  let s : OCIStorage ListFailStore := NewOCIStorage (mkListFail ∅) (NewSessionManager 1800) in
  ListTags s (str "myrepo") = Ok [] /\
  handlers.TagsList s (str "myrepo") = (handlers.respond handlers.StatusOK None [], []).
Proof.
  intros s.
  apply (ListTags_swallows_errors s (str "myrepo") (ErrOther (str "input/output error"))).
  reflexivity.
Defined.

#[local] Arguments sha256.Sum256 : simpl never.
#[local] Arguments Sprintf_x : simpl never.
#[local] Arguments computeSHA256 : simpl never.
#[local] Arguments BlobDataPath : simpl never.
#[local] Arguments ManifestRevisionLinkPath : simpl never.
#[local] Arguments ManifestTagCurrentLinkPath : simpl never.
#[local] Arguments UploadDataPath : simpl never.
#[local] Arguments strings.TrimSpace : simpl never.
#[local] Arguments ParseDigest : simpl never.
#[local] Arguments String_ : simpl never.

(** ** Manifests on a store that honours the contract *)

Section Manifests.
Context {S : Type} `{ReliableStore S}.

Lemma upload_ok p d (st : S) : store_upload p d st = (None, (store_upload p d st).2).
Proof.
  pose proof (upload_succeeds p d st) as E.
  destruct (store_upload p d st). simpl in *. by subst.
Qed.

Lemma PutManifest_run (s : OCIStorage S) name reference contentType data :
  let d := computeSHA256 data in
  let st2 := with_revision (store s) name contentType data in
  PutManifest s name reference contentType data =
    (Ok d,
     {| store := if isDigestReference reference then st2
                 else (store_upload (ManifestTagCurrentLinkPath name reference)
                         (metaContent d contentType) st2).2;
        sm := sm s |}).
Proof.
  intros d st2. unfold PutManifest.
  change (ReadAllVerifying (NewReader data))
    with (Ok data, {| hashed := data; size := Z.of_nat (length data) |}).
  cbv beta iota.
  change (Digest {| hashed := data; size := Z.of_nat (length data) |}) with d.
  rewrite (upload_ok (BlobDataPath d)).
  rewrite (upload_ok (ManifestRevisionLinkPath name d)).
  fold (metaContent d contentType). fold st2. unfold with_revision in st2.
  destruct (isDigestReference reference); simpl; [done|].
  by rewrite (upload_ok (ManifestTagCurrentLinkPath name reference)).
Qed.

Lemma with_revision_blob st name contentType data :
  store_download (BlobDataPath (computeSHA256 data)) (with_revision st name contentType data)
  = Ok (NewReader data).
Proof.
  unfold with_revision.
  rewrite download_upload_ne by (intros E; symmetry in E; by apply blob_ne_revision in E).
  apply download_upload_eq.
Qed.

Lemma with_revision_link st name contentType data :
  let d := computeSHA256 data in
  store_download (ManifestRevisionLinkPath name d) (with_revision st name contentType data)
  = Ok (NewReader (metaContent d contentType)).
Proof. apply download_upload_eq. Qed.

Lemma with_revision_tags st name contentType data name' tag :
  store_download (ManifestTagCurrentLinkPath name' tag) (with_revision st name contentType data)
  = store_download (ManifestTagCurrentLinkPath name' tag) st.
Proof.
  unfold with_revision.
  rewrite !download_upload_ne; [done|apply blob_ne_tag|].
  apply revision_ne_tag; [apply sha_Hex_plain | apply Sprintf_x_af09].
Qed.

(** C10: when the reference contains a colon, [PutManifest] succeeds with
    the sha256 digest of the bytes, writes the blob and the revision link
    under that digest and nothing else: every tag link of every
    repository reads as before, and the outcome is the same for every
    other reference that contains a colon, so the reference is neither
    parsed nor compared with the digest. *)
Theorem PutManifest_digest_reference (s : OCIStorage S)
    (name reference contentType data : list ascii) :
  isDigestReference reference = true ->
  let d := computeSHA256 data in
  let st2 := with_revision (store s) name contentType data in
  PutManifest s name reference contentType data = (Ok d, {| store := st2; sm := sm s |}) /\
  store_download (BlobDataPath d) st2 = Ok (NewReader data) /\
  store_download (ManifestRevisionLinkPath name d) st2
    = Ok (NewReader (String_ d ++ [newline] ++ contentType)) /\
  (forall name' tag,
     store_download (ManifestTagCurrentLinkPath name' tag) st2
     = store_download (ManifestTagCurrentLinkPath name' tag) (store s)) /\
  (forall reference',
     isDigestReference reference' = true ->
     PutManifest s name reference' contentType data
     = PutManifest s name reference contentType data).
Proof.
  intros Hr d st2. split; [|split; [|split; [|split]]].
  - rewrite PutManifest_run. fold d st2. by rewrite Hr.
  - apply with_revision_blob.
  - apply with_revision_link.
  - intros name' tag. apply with_revision_tags.
  - intros reference' Hr'. rewrite !PutManifest_run. by rewrite Hr, Hr'.
Qed.

End Manifests.

Lemma SplitN2_cut sep x y :
  forallb (fun c => negb (Ascii.eqb c sep)) x = true ->
  strings.SplitN2 (x ++ sep :: y) sep = [x; y].
Proof.
  induction x as [|c x IH]; simpl.
  - by rewrite Ascii.eqb_refl.
  - intros [Hc Hx]%andb_true_iff. apply negb_true_iff in Hc. by rewrite Hc, IH.
Qed.

Lemma sha_String_shape data :
  digest_shape (String_ (computeSHA256 data)) (str "sha256") (Hex (computeSHA256 data)).
Proof.
  pose proof (sha_Hex_plain data) as [Hne _].
  split; [done|]. split; [done|]. split; [reflexivity|]. split; [done|].
  apply Sprintf_x_af09.
Qed.

Lemma sha_String_TrimSpace data :
  strings.TrimSpace (String_ (computeSHA256 data)) = String_ (computeSHA256 data).
Proof. eapply digest_shape_TrimSpace, sha_String_shape. Qed.

Lemma sha_ParseDigest data :
  ParseDigest (String_ (computeSHA256 data)) = Ok (computeSHA256 data).
Proof.
  rewrite (ParseDigest_shape _ (str "sha256") (Hex (computeSHA256 data))); [done|].
  rewrite sha_String_TrimSpace. apply sha_String_shape.
Qed.

Lemma sha_String_no_newline data :
  forallb (fun c => negb (Ascii.eqb c newline)) (String_ (computeSHA256 data)) = true.
Proof.
  change (String_ (computeSHA256 data))
    with (str "sha256:" ++ Hex (computeSHA256 data)).
  rewrite forallb_app. apply andb_true_iff. split; [reflexivity|].
  eapply forallb_impl; [|apply Sprintf_x_af09].
  intros c Hc. apply negb_true_iff, Ascii.eqb_neq. intros ->. vm_compute in Hc. done.
Qed.

Lemma sha_String_is_digest_reference data :
  isDigestReference (String_ (computeSHA256 data)) = true.
Proof. reflexivity. Qed.

Lemma SplitN2_metaContent data contentType :
  strings.SplitN2 (metaContent (computeSHA256 data) contentType) newline
  = [String_ (computeSHA256 data); contentType].
Proof. apply SplitN2_cut, sha_String_no_newline. Qed.

Section ManifestRoundTrip.
Context {S : Type} `{ReliableStore S}.

(** The store after [PutManifest] under a tag. *)
Lemma PutManifest_tag_store (s : OCIStorage S) name tag contentType data :
  isDigestReference tag = false ->
  let d := computeSHA256 data in
  let st3 := store (PutManifest s name tag contentType data).2 in
  (PutManifest s name tag contentType data).1 = Ok d /\
  store_download (ManifestTagCurrentLinkPath name tag) st3
    = Ok (NewReader (metaContent d contentType)) /\
  store_download (ManifestRevisionLinkPath name d) st3
    = Ok (NewReader (metaContent d contentType)) /\
  store_download (BlobDataPath d) st3 = Ok (NewReader data).
Proof.
  intros Htag d st3. subst st3. rewrite PutManifest_run, Htag. cbn [fst snd store].
  subst d. set (d := computeSHA256 data).
  set (st2 := with_revision (store s) name contentType data).
  split; [done|]. split; [apply download_upload_eq|]. split.
  - destruct (decide (ManifestTagCurrentLinkPath name tag = ManifestRevisionLinkPath name d))
      as [E|E].
    + rewrite E. apply download_upload_eq.
    + rewrite download_upload_ne by done. apply with_revision_link.
  - rewrite download_upload_ne.
    + apply with_revision_blob.
    + intros E. symmetry in E. by apply blob_ne_tag in E.
Qed.

Lemma GetManifest_by_tag (s : OCIStorage S) name tag contentType data :
  isDigestReference tag = false ->
  store_download (ManifestTagCurrentLinkPath name tag) (store s)
    = Ok (NewReader (metaContent (computeSHA256 data) contentType)) ->
  store_download (BlobDataPath (computeSHA256 data)) (store s) = Ok (NewReader data) ->
  GetManifest s name tag = Ok (data, computeSHA256 data, reported_type contentType).
Proof.
  intros Htag Hlink Hblob. unfold GetManifest, resolveReference.
  rewrite Htag, Hlink.
  change (ReadAll (NewReader ?x)) with (Ok x). cbv beta iota.
  rewrite SplitN2_metaContent. cbn [hd].
  rewrite sha_String_TrimSpace, sha_ParseDigest, Hblob. done.
Qed.

Lemma GetManifest_by_digest (s : OCIStorage S) name contentType data :
  store_download (ManifestRevisionLinkPath name (computeSHA256 data)) (store s)
    = Ok (NewReader (metaContent (computeSHA256 data) contentType)) ->
  store_download (BlobDataPath (computeSHA256 data)) (store s) = Ok (NewReader data) ->
  GetManifest s name (String_ (computeSHA256 data))
  = Ok (data, computeSHA256 data, reported_type contentType).
Proof.
  intros Hrev Hblob. unfold GetManifest, resolveReference, readManifestMeta.
  rewrite sha_String_is_digest_reference, sha_ParseDigest, Hrev.
  change (ReadAll (NewReader ?x)) with (Ok x). cbv beta iota.
  rewrite SplitN2_metaContent, Hblob. done.
Qed.

(** C3: on a store that honours its contract, [PutManifest] under the
    tag latest returns the sha256 digest of the bytes, and [GetManifest]
    by the tag latest and by the canonical digest string both return the
    bytes, that digest, and the content type with surrounding white space
    trimmed, replaced by application/vnd.oci.image.manifest.v1+json when
    nothing is left. *)
Theorem manifest_roundtrip (s : OCIStorage S) (name contentType data : list ascii) :
  let d := computeSHA256 data in
  let s' := (PutManifest s name (str "latest") contentType data).2 in
  (PutManifest s name (str "latest") contentType data).1 = Ok d /\
  GetManifest s' name (str "latest") = Ok (data, d, reported_type contentType) /\
  GetManifest s' name (String_ d) = Ok (data, d, reported_type contentType).
Proof.
  intros d s'.
  assert (Htag : isDigestReference (str "latest") = false) by reflexivity.
  destruct (PutManifest_tag_store s name (str "latest") contentType data Htag)
    as (Hput & Hlink & Hrev & Hblob).
  split; [exact Hput|]. split.
  - by apply GetManifest_by_tag.
  - by apply GetManifest_by_digest.
Qed.

End ManifestRoundTrip.

Lemma manifest_roundtrip_witness :
  GetManifest
    (PutManifest emptyRegistry (str "myrepo") (str "latest") (str "application/json")
       (str "{}")).2
    (str "myrepo") (str "latest")
  = Ok (str "{}", computeSHA256 (str "{}"), reported_type (str "application/json")).
Proof.
  exact (proj1 (proj2 (manifest_roundtrip emptyRegistry (str "myrepo")
                         (str "application/json") (str "{}")))).
Defined.

(** A content type stored with white space around it is not read back as
    it was stored. *)
Lemma manifest_roundtrip_counterexample :
  GetManifest
    (PutManifest emptyRegistry (str "myrepo") (str "latest") (str " text/plain")
       (str "{}")).2
    (str "myrepo") (str "latest")
  <> Ok (str "{}", computeSHA256 (str "{}"), str " text/plain").
Proof.
  destruct (PutManifest_tag_store emptyRegistry (str "myrepo") (str "latest")
              (str " text/plain") (str "{}") eq_refl) as (_ & Hlink & _ & Hblob).
  rewrite (GetManifest_by_tag _ (str "myrepo") (str "latest") (str " text/plain") (str "{}")
             eq_refl Hlink Hblob).
  intros E. apply (f_equal (fun r => match r with Ok (_, _, ct) => ct | Err _ => [] end)) in E.
  vm_compute in E. discriminate.
Qed.

#[local] Arguments generateUUID : simpl never.

(** ** Chunked uploads *)

Section Uploads.
Context {S : Type} `{ReliableStore S}.

Lemma InitiateUpload_uploading (s0 : OCIStorage S) repository now rnd uuid s1 :
  InitiateUpload s0 repository now rnd = (Ok uuid, s1) ->
  plain uuid /\ uploading s1 uuid now [] /\ timeout (sm s1) = timeout (sm s0).
Proof.
  unfold InitiateUpload, Create.
  destruct (generateUUID rnd) as [u|e] eqn:Eu; [|done].
  rewrite upload_ok. intros [= <- <-]. split; [by eapply generateUUID_plain|].
  split; [|done]. split.
  - eexists. cbn [sm sessions]. rewrite lookup_insert_eq. done.
  - apply download_upload_eq.
Qed.

Lemma WriteUploadChunk_uploading (s : OCIStorage S) uuid started acc chunk now :
  uploading s uuid started acc ->
  now - started <= timeout (sm s) ->
  exists s',
    WriteUploadChunk s uuid (NewReader chunk) now
      = (Ok (Z.of_nat (length (acc ++ chunk))), s') /\
    uploading s' uuid started (acc ++ chunk) /\
    timeout (sm s') = timeout (sm s).
Proof.
  intros [(session & Hs & Hst & Hbw) Hd] Ht. unfold WriteUploadChunk.
  rewrite (Get_live _ _ _ session) by (by rewrite ?Hst).
  assert (He : existingData (store s) (UploadDataPath uuid) session = Ok acc).
  { unfold existingData. rewrite Hd.
    destruct (Z.ltb_spec 0 (BytesWritten session)); [done|].
    destruct acc; [done|]. simpl in Hbw. lia. }
  rewrite He. change (ReadAll (NewReader chunk)) with (Ok chunk). cbv beta iota.
  rewrite upload_ok. eexists. split; [done|].
  unfold UpdateBytes. rewrite Hs. cbn [snd sm store sessions timeout].
  split; [|done]. split.
  - eexists. cbn [sm sessions]. rewrite lookup_insert_eq. done.
  - apply download_upload_eq.
Qed.

Lemma WriteChunks_uploading (chunks : list (list ascii * Z)) :
  forall (s : OCIStorage S) uuid started acc,
  uploading s uuid started acc ->
  Forall (fun c => c.2 - started <= timeout (sm s)) chunks ->
  exists s',
    WriteChunks s uuid chunks = (Ok tt, s') /\
    uploading s' uuid started (acc ++ concat (map fst chunks)) /\
    timeout (sm s') = timeout (sm s).
Proof.
  induction chunks as [|[c t] chunks IH]; intros s uuid started acc Hu Ht.
  - exists s. simpl. by rewrite app_nil_r.
  - apply Forall_cons in Ht as [Ht Hts]. simpl in Ht.
    destruct (WriteUploadChunk_uploading s uuid started acc c t Hu Ht)
      as (s1 & E1 & Hu1 & Ht1).
    cbn [WriteChunks]. rewrite E1.
    destruct (IH s1 uuid started (acc ++ c) Hu1) as (s2 & E2 & Hu2 & Ht2).
    { by rewrite Ht1. }
    exists s2. split; [done|]. split; [|congruence].
    simpl. by rewrite app_assoc.
Qed.

Lemma CompleteUpload_uploading (s : OCIStorage S) uuid started data now :
  plain uuid ->
  uploading s uuid started data ->
  now - started <= timeout (sm s) ->
  exists s',
    CompleteUpload s uuid (computeSHA256 data) now = (Ok (computeSHA256 data), s') /\
    GetBlob s' (computeSHA256 data) = Ok (NewReader data) /\
    sessions (sm s') !! uuid = None.
Proof.
  intros Hp [(session & Hs & Hst & Hbw) Hd] Ht. unfold CompleteUpload.
  rewrite (Get_live _ _ _ session) by (by rewrite ?Hst).
  rewrite Hd.
  change (ReadAllVerifying (NewReader data))
    with (Ok data, {| hashed := data; size := Z.of_nat (length data) |}).
  cbv beta iota. rewrite Verify_ok, upload_ok.
  eexists. split; [done|]. split.
  - unfold GetBlob. cbn [store].
    rewrite download_delete_ne by by apply upload_ne_blob.
    by rewrite download_upload_eq.
  - simpl. apply lookup_delete_eq.
Qed.

(** C1: on a store that honours its contract, after [InitiateUpload] has
    returned a UUID, writing the chunks of any partitioning of [b] in
    order and then completing with the sha256 digest of [b], each call
    made before the session times out, succeeds and returns that digest,
    and [GetBlob] on it then returns exactly [b]. *)
Theorem chunked_upload_roundtrip (s0 : OCIStorage S) (repository : list ascii)
    (started : Z) (rnd : result (list ascii)) (uuid : list ascii) (s1 : OCIStorage S)
    (chunks : list (list ascii * Z)) (finish : Z) :
  InitiateUpload s0 repository started rnd = (Ok uuid, s1) ->
  Forall (fun c => c.2 - started <= timeout (sm s0)) chunks ->
  finish - started <= timeout (sm s0) ->
  let b := concat (map fst chunks) in
  exists s2 s3,
    WriteChunks s1 uuid chunks = (Ok tt, s2) /\
    CompleteUpload s2 uuid (computeSHA256 b) finish = (Ok (computeSHA256 b), s3) /\
    GetBlob s3 (computeSHA256 b) = Ok (NewReader b).
Proof.
  intros Hi Hts Ht b.
  apply InitiateUpload_uploading in Hi as (Hp & Hu & Ht0).
  destruct (WriteChunks_uploading chunks s1 uuid started [] Hu) as (s2 & E2 & Hu2 & Ht2).
  { by rewrite Ht0. }
  destruct (CompleteUpload_uploading s2 uuid started b finish Hp Hu2) as (s3 & E3 & Hg & _).
  { by rewrite Ht2, Ht0. }
  by exists s2, s3.
Qed.

End Uploads.

Lemma chunked_upload_roundtrip_witness :
  let rnd := Ok (repeat "001"%char 16) in
  let uuid := str "01010101-0101-4101-8101-010101010101" in
  let chunks := [(str "hello ", 10); (str "world", 20)] in
  let b := str "hello world" in
  exists s2 s3,
    WriteChunks (InitiateUpload emptyRegistry (str "myrepo") 0 rnd).2 uuid chunks = (Ok tt, s2) /\
    CompleteUpload s2 uuid (computeSHA256 b) 30 = (Ok (computeSHA256 b), s3) /\
    GetBlob s3 (computeSHA256 b) = Ok (NewReader b).
Proof.
  intros rnd uuid chunks b.
  apply (chunked_upload_roundtrip emptyRegistry (str "myrepo") 0 rnd uuid
           (InitiateUpload emptyRegistry (str "myrepo") 0 rnd).2 chunks 30).
  - reflexivity.
  - repeat constructor; simpl; lia.
  - simpl. lia.
Defined.

(** ** A cancelled upload stays cancelled *)

Lemma Delete_gone sm u uuid :
  sessions sm !! u = None -> sessions (Delete sm uuid) !! u = None.
Proof.
  intros E. simpl. destruct (decide (uuid = u)) as [->|Hne].
  - apply lookup_delete_eq.
  - by rewrite lookup_delete_ne.
Qed.

Lemma Get_gone sm u uuid now :
  sessions sm !! u = None -> sessions (Get sm uuid now).2 !! u = None.
Proof.
  intros E. unfold Get. destruct (sessions sm !! uuid) as [session|]; [|done].
  destruct (timeout sm <? now - StartedAt session); [|done].
  by apply Delete_gone.
Qed.

Lemma Get_absent sm u now :
  sessions sm !! u = None -> Get sm u now = (Err ErrUploadNotFound, sm).
Proof. intros E. unfold Get. by rewrite E. Qed.

Lemma UpdateBytes_gone sm u uuid n :
  sessions sm !! u = None -> sessions (UpdateBytes sm uuid n).2 !! u = None.
Proof.
  intros E. unfold UpdateBytes. destruct (sessions sm !! uuid) as [session|] eqn:Es; [|done].
  simpl. rewrite lookup_insert_ne; [done|]. intros ->. congruence.
Qed.

Lemma Create_gone sm u repository now rnd :
  generateUUID rnd <> Ok u ->
  sessions sm !! u = None -> sessions (Create sm repository now rnd).2 !! u = None.
Proof.
  intros Hr E. unfold Create. destruct (generateUUID rnd) as [uuid|e]; [|done].
  simpl. rewrite lookup_insert_ne; [done|]. intros ->. done.
Qed.

Section Cancelled.
Context {S : Type} `{BlobStorage S}.

Lemma run_call_gone (s : OCIStorage S) u c :
  draws_other u c ->
  sessions (sm s) !! u = None -> sessions (sm (run_call s c).2) !! u = None.
Proof.
  intros Hc E. destruct c as [repository now rnd|uuid data now|uuid expected now
                             |uuid now|name reference contentType data]; simpl in Hc.
  - pose proof (Create_gone (sm s) u repository now rnd Hc E) as Hg.
    unfold run_call, InitiateUpload.
    destruct (Create (sm s) repository now rnd) as [[uuid|e] sm'];
      simpl in Hg; [|done].
    destruct (store_upload _ _ _) as [[e|] st']; simpl; [|done].
    by apply Delete_gone.
  - pose proof (Get_gone (sm s) u uuid now E) as Hg.
    unfold run_call, WriteUploadChunk.
    destruct (Get (sm s) uuid now) as [[session|e] sm']; simpl in Hg; [|done].
    destruct (existingData _ _ _); [|done].
    destruct (ReadAll data); [|done].
    destruct (store_upload _ _ _) as [[e|] st']; simpl; [done|].
    by apply UpdateBytes_gone.
  - pose proof (Get_gone (sm s) u uuid now E) as Hg.
    unfold run_call, CompleteUpload.
    destruct (Get (sm s) uuid now) as [[session|e] sm']; simpl in Hg; [|done].
    destruct (store_download _ _); [|done].
    destruct (ReadAllVerifying _) as [[data|e] vr]; [|done].
    destruct (Verify _ _); [done|].
    destruct (store_upload _ _ _) as [[e|] st']; simpl; [done|].
    by apply Delete_gone.
  - pose proof (Get_gone (sm s) u uuid now E) as Hg.
    unfold run_call, CancelUpload.
    destruct (Get (sm s) uuid now) as [[session|e] sm']; simpl in Hg; [|done].
    simpl. by apply Delete_gone.
  - unfold run_call, PutManifest.
    destruct (ReadAllVerifying _) as [[d|e] vr]; [|done].
    destruct (store_upload _ _ _) as [[e|] st1]; [done|].
    destruct (store_upload _ _ _) as [[e|] st2]; [done|].
    destruct (negb _); [|done].
    by destruct (store_upload _ _ _) as [[e|] st3].
Qed.

Lemma run_calls_gone cs : forall (s : OCIStorage S) u,
  Forall (draws_other u) cs ->
  sessions (sm s) !! u = None -> sessions (sm (run_calls s cs)) !! u = None.
Proof.
  induction cs as [|c cs IH]; intros s u Hcs E; [done|].
  apply Forall_cons in Hcs as [Hc Hcs]. unfold run_calls. cbn [fold_left].
  apply IH; [done|]. by apply run_call_gone.
Qed.

Lemma run_call_unknown (s : OCIStorage S) u c :
  call_on u c -> sessions (sm s) !! u = None ->
  run_call s c = (Some ErrUploadNotFound, s).
Proof.
  intros Hc E. destruct s as [st m].
  destruct c; simpl in Hc; try done; subst;
    unfold run_call, WriteUploadChunk, CompleteUpload, CancelUpload;
    cbn [sm store] in *; by rewrite Get_absent.
Qed.

(** C9: once [CancelUpload] has succeeded on [u], after any later calls
    on the engine of which none draws [u] again as a fresh UUID, [u] is
    not in the session table, and every call on [u] (write, complete,
    cancel) fails with [ErrUploadNotFound] and changes nothing. *)
Theorem cancel_is_final (s0 : OCIStorage S) (u : list ascii) (now : Z)
    (s1 : OCIStorage S) (later : list call) :
  CancelUpload s0 u now = (None, s1) ->
  Forall (draws_other u) later ->
  let s2 := run_calls s1 later in
  sessions (sm s2) !! u = None /\
  forall c, call_on u c -> run_call s2 c = (Some ErrUploadNotFound, s2).
Proof.
  intros Hc Hl s2.
  assert (E1 : sessions (sm s1) !! u = None).
  { unfold CancelUpload in Hc.
    destruct (Get (sm s0) u now) as [[session|e] sm']; [|done].
    injection Hc as <-. simpl. apply lookup_delete_eq. }
  assert (E2 : sessions (sm s2) !! u = None) by by apply run_calls_gone.
  split; [done|]. intros c Hcall. by apply (run_call_unknown s2 u).
Qed.

End Cancelled.

Lemma cancel_is_final_witness :
  let u := str "01010101-0101-4101-8101-010101010101" in
  let s0 := (InitiateUpload emptyRegistry (str "myrepo") 0 (Ok (repeat "001"%char 16))).2 in
  let later := [CallInitiate (str "myrepo") 5 (Ok (repeat "002"%char 16));
                CallWrite u (NewReader (str "late")) 6] in
  let s2 := run_calls (CancelUpload s0 u 3).2 later in
  sessions (sm s2) !! u = None /\
  forall c, call_on u c -> run_call s2 c = (Some ErrUploadNotFound, s2).
Proof.
  intros u s0 later s2.
  apply (cancel_is_final s0 u 3 (CancelUpload s0 u 3).2 later).
  - reflexivity.
  - repeat constructor. simpl. vm_compute. discriminate.
Defined.

Lemma CompleteUpload_mismatch_witness :
  let u := str "01010101-0101-4101-8101-010101010101" in
  let s : OCIStorage MemStore :=
    (WriteUploadChunk
       (InitiateUpload emptyRegistry (str "myrepo") 0 (Ok (repeat "001"%char 16))).2
       u (NewReader (str "some data")) 1).2 in
  let wrong := {| Algorithm := str "sha256"; Hex := repeat "0"%char 64 |} in
  exists e, CompleteUpload s u wrong 2 = (Err e, s) /\ errors_Is e ErrDigestMismatch = true.
Proof.
  intros u s wrong.
  apply (CompleteUpload_mismatch s u wrong 2
           {| UUID := u; Repository := str "myrepo"; StartedAt := 0; BytesWritten := 9 |}
           (NewReader (str "some data")) (str "some data")).
  - vm_compute. reflexivity.
  - vm_compute. discriminate.
  - vm_compute. reflexivity.
  - reflexivity.
  - intros E. vm_compute in E. discriminate.
Defined.

Lemma PutManifest_digest_reference_witness :
  (PutManifest emptyRegistry (str "myrepo") (str "sha256:0000") (str "application/json")
     (str "{}")).1
  = Ok (computeSHA256 (str "{}")).
Proof.
  rewrite (proj1 (PutManifest_digest_reference emptyRegistry (str "myrepo") (str "sha256:0000")
                    (str "application/json") (str "{}") eq_refl)).
  reflexivity.
Defined.

(** ** The model on the inputs of the repository's tests *)

Example manifest_content_type_trimmed :
  GetManifest
    (PutManifest emptyRegistry (str "myrepo") (str "latest") (str " text/plain")
       (str "{}")).2
    (str "myrepo") (str "latest")
  = Ok (str "{}", computeSHA256 (str "{}"), str "text/plain").
Proof.
  destruct (PutManifest_tag_store emptyRegistry (str "myrepo") (str "latest")
              (str " text/plain") (str "{}") eq_refl) as (_ & Hlink & _ & Hblob).
  exact (GetManifest_by_tag _ (str "myrepo") (str "latest") (str " text/plain") (str "{}")
           eq_refl Hlink Hblob).
Qed.

Example Sum256_empty :
  Sprintf_x (sha256.Sum256 [])
  = str "e3b0c44298fc1c149afbf4c8996fb92427ae41e4649b934ca495991b7852b855".
Proof. vm_compute. reflexivity. Qed.

Example Sum256_abc :
  Sprintf_x (sha256.Sum256 (str "abc"))
  = str "ba7816bf8f01cfea414140de5dae2223b00361a396177a9cb410ff61f20015ad".
Proof. vm_compute. reflexivity. Qed.

Example Sum256_two_blocks :
  Sprintf_x (sha256.Sum256 (str "abcdbcdecdefdefgefghfghighijhijkijkljklmklmnlmnomnopnopq"))
  = str "248d6a61d20638b8e5c026930c3e6039a33ce45964ff2167f6ecedd419db06c1".
Proof. vm_compute. reflexivity. Qed.

Example TestBlobDataPath :
  BlobDataPath {| Algorithm := str "sha256"; Hex := str "abcdef1234567890" |}
  = str "v2/blobs/sha256/ab/abcdef1234567890/data".
Proof. vm_compute. reflexivity. Qed.

Example TestManifestRevisionLinkPath :
  ManifestRevisionLinkPath (str "myrepo/myimage")
    {| Algorithm := str "sha256"; Hex := str "abcdef1234567890" |}
  = str "v2/repositories/myrepo/myimage/_manifests/revisions/sha256/abcdef1234567890/link".
Proof. vm_compute. reflexivity. Qed.

Example TestManifestTagCurrentLinkPath :
  ManifestTagCurrentLinkPath (str "myrepo/myimage") (str "latest")
  = str "v2/repositories/myrepo/myimage/_manifests/tags/latest/current/link".
Proof. vm_compute. reflexivity. Qed.

Example TestManifestTagsDir :
  ManifestTagsDir (str "myrepo/myimage") = str "v2/repositories/myrepo/myimage/_manifests/tags".
Proof. vm_compute. reflexivity. Qed.

Example TestUploadDataPath :
  UploadDataPath (str "550e8400-e29b-41d4-a716-446655440000")
  = str "v2/uploads/550e8400-e29b-41d4-a716-446655440000/data".
Proof. vm_compute. reflexivity. Qed.

Example Clean_dotdot :
  path.Clean (str "v2/uploads/../blobs//sha256/./ab/") = str "v2/blobs/sha256/ab".
Proof. vm_compute. reflexivity. Qed.

Example Clean_above : path.Clean (str "a/../../b") = str "../b".
Proof. vm_compute. reflexivity. Qed.

Example Clean_rooted : path.Clean (str "/../a/b/../c") = str "/a/c".
Proof. vm_compute. reflexivity. Qed.

Example TestParseDigest_valid :
  ParseDigest (str "sha256:abcdef1234567890abcdef1234567890abcdef1234567890abcdef1234567890")
  = Ok {| Algorithm := str "sha256";
          Hex := str "abcdef1234567890abcdef1234567890abcdef1234567890abcdef1234567890" |}.
Proof. vm_compute. reflexivity. Qed.

Example TestParseDigest_invalid :
  Forall (fun s => exists e, ParseDigest (str s) = Err e)
    [""; "sha256abcdef"; ":abcdef"; "sha256:ABCDEF"; "sha256:xyz123"; "sha256:ab cd"]%string.
Proof. repeat constructor; eexists; vm_compute; reflexivity. Qed.

Example TestParseDigest_trimmed :
  ParseDigest ("009"%char :: " "%char :: str "sha256:abcd" ++ ["194"; "160"; "010"]%char)
  = Ok {| Algorithm := str "sha256"; Hex := str "abcd" |}.
Proof. vm_compute. reflexivity. Qed.

Example TestGenerateUUID :
  generateUUID (Ok (map ascii_of_N [0x55; 0x0e; 0x84; 0x00; 0xe2; 0x9b; 0xf1; 0xd4;
                                    0x27; 0x16; 0x44; 0x66; 0x55; 0x44; 0x00; 0x00]%N))
  = Ok (str "550e8400-e29b-41d4-a716-446655440000").
Proof. vm_compute. reflexivity. Qed.

Example TestOCIStorage_ListTags :
  let s1 := (PutManifest emptyRegistry (str "myrepo") (str "v1.0") (str "application/json")
               (str "{1}")).2 in
  let s2 := (PutManifest s1 (str "myrepo") (str "v2.0") (str "application/json")
               (str "{2}")).2 in
  exists tags, ListTags s2 (str "myrepo") = Ok tags /\ tags ≡ₚ [str "v1.0"; str "v2.0"] /\
  ListTags s2 (str "nonexistent") = Ok [].
Proof.
  vm_compute. eexists. split; [reflexivity|]. split; [|reflexivity].
  first [ reflexivity | apply Permutation_swap ].
Qed.

(** ** Further properties of the session manager *)

Lemma version_nibble c :
  hexdigit (byte_val (ascii_of_N (N.lor (N.land (byte_val c) 15) 64)) / 16) = "4"%char.
Proof. destruct c as [[] [] [] [] [] [] [] []]; vm_compute; reflexivity. Qed.

Lemma variant_nibble c :
  hexdigit (byte_val (ascii_of_N (N.lor (N.land (byte_val c) 63) 128)) / 16)
  ∈ ["8"; "9"; "a"; "b"]%char.
Proof.
  destruct c as [[] [] [] [] [] [] [] []]; vm_compute;
    repeat first [ apply list_elem_of_here | apply list_elem_of_further ].
Qed.

Lemma length_16 (r : list ascii) :
  length r = 16%nat ->
  exists b0 b1 b2 b3 b4 b5 b6 b7 b8 b9 b10 b11 b12 b13 b14 b15,
    r = [b0; b1; b2; b3; b4; b5; b6; b7; b8; b9; b10; b11; b12; b13; b14; b15].
Proof.
  intros E. do 16 (destruct r as [|? r]; [discriminate|]).
  destruct r; [|discriminate]. by repeat eexists.
Qed.

Lemma generateUUID_shaped (r u : list ascii) :
  length r = 16%nat -> generateUUID (Ok r) = Ok u -> uuid_shaped u.
Proof.
  intros Hr Hu. split; [|by apply (generateUUID_bytes (Ok r))].
  destruct (length_16 r Hr)
    as (b0 & b1 & b2 & b3 & b4 & b5 & b6 & b7 & b8 & b9 & b10 & b11 & b12 & b13 & b14 & b15 & ->).
  injection Hu as <-. reflexivity.
Qed.

Lemma uuid_shaped_plain u : uuid_shaped u -> plain u.
Proof.
  intros [Hl Hb]. split; [by destruct u|].
  eapply forallb_impl; [apply uuid_byte_plain|done].
Qed.

(** X1: the UUID made from 16 random bytes has 36 bytes, hyphens at the
    offsets 8, 13, 18 and 23, the version digit 4 at offset 14, a variant
    digit among 8, 9, a, b at offset 19, and only lowercase hexadecimal
    digits and hyphens; a failure of the random source is returned as it
    is. *)
Theorem generateUUID_format (r : list ascii) :
  length r = 16%nat ->
  (exists u,
    generateUUID (Ok r) = Ok u /\
    length u = 36%nat /\
    u !! 8%nat = Some "-"%char /\ u !! 13%nat = Some "-"%char /\
    u !! 18%nat = Some "-"%char /\ u !! 23%nat = Some "-"%char /\
    u !! 14%nat = Some "4"%char /\
    (exists c, u !! 19%nat = Some c /\ c ∈ ["8"; "9"; "a"; "b"]%char) /\
    forallb uuid_byte u = true) /\
  forall e, generateUUID (Err e) = Err e.
Proof.
  intros Hr. split; [|done].
  destruct (generateUUID (Ok r)) as [u|e] eqn:Eu; [|done].
  destruct (generateUUID_shaped r u Hr Eu) as [Hlen Hbytes].
  exists u. split; [done|]. split; [done|].
  destruct (length_16 r Hr)
    as (b0 & b1 & b2 & b3 & b4 & b5 & b6 & b7 & b8 & b9 & b10 & b11 & b12 & b13 & b14 & b15 & ->).
  injection Eu as <-.
  repeat (split; [reflexivity|]). split; [|split; [|done]].
  - change (Some (hexdigit (byte_val (ascii_of_N (N.lor (N.land (byte_val b6) 15) 64)) / 16))
            = Some "4"%char).
    by rewrite version_nibble.
  - eexists. split; [reflexivity|]. apply variant_nibble.
Qed.

Lemma generateUUID_format_witness :
  exists u,
    generateUUID (Ok (repeat "255"%char 16)) = Ok u /\
    length u = 36%nat /\
    u !! 8%nat = Some "-"%char /\ u !! 13%nat = Some "-"%char /\
    u !! 18%nat = Some "-"%char /\ u !! 23%nat = Some "-"%char /\
    u !! 14%nat = Some "4"%char /\
    (exists c, u !! 19%nat = Some c /\ c ∈ ["8"; "9"; "a"; "b"]%char) /\
    forallb uuid_byte u = true.
Proof. apply (generateUUID_format (repeat "255"%char 16)). reflexivity. Defined.

Lemma errors_Is_refl e : errors_Is e e = true.
Proof. destruct e; cbn [errors_Is]; by rewrite bool_decide_eq_true_2. Qed.

Lemma errors_Is_Wrap msg e target :
  errors_Is e target = true -> errors_Is (Wrap msg e) target = true.
Proof. intros E. simpl. rewrite E. apply orb_true_r. Qed.

(** X2: [Create] files a fresh session under the UUID it returns: read
    back before the timeout it has that UUID, the given repository, the
    creation time and no bytes written; the timeout and every other entry
    are as before.  When the random source fails, [Create] fails and the
    manager is unchanged. *)
Theorem Create_Get (sm : SessionManager) (repository : list ascii) (now : Z)
    (rnd : result (list ascii)) :
  (forall u sm1, Create sm repository now rnd = (Ok u, sm1) ->
     generateUUID rnd = Ok u /\
     timeout sm1 = timeout sm /\
     (forall k, k <> u -> sessions sm1 !! k = sessions sm !! k) /\
     (forall t, t - now <= timeout sm ->
        Get sm1 u t = (Ok {| UUID := u; Repository := repository;
                             StartedAt := now; BytesWritten := 0 |}, sm1))) /\
  (forall e, rnd = Err e ->
     exists e', Create sm repository now rnd = (Err e', sm) /\ errors_Is e' e = true).
Proof.
  split.
  - intros u sm1 Hc. unfold Create in Hc.
    destruct (generateUUID rnd) as [u'|e]; [|done]. injection Hc as <- <-.
    split; [done|]. split; [done|]. split.
    + intros k Hk. simpl. by rewrite lookup_insert_ne.
    + intros t Ht. apply Get_live; simpl; [apply lookup_insert_eq|lia].
  - intros e ->. unfold Create. simpl. eexists. split; [done|].
    apply errors_Is_Wrap, errors_Is_refl.
Qed.

Lemma Create_Get_witness :
  let sm := NewSessionManager 1800 in
  let u := str "01010101-0101-4101-8101-010101010101" in
  let sm1 := (Create sm (str "myrepo") 100 (Ok (repeat "001"%char 16))).2 in
  Get sm1 u 500 = (Ok {| UUID := u; Repository := str "myrepo";
                         StartedAt := 100; BytesWritten := 0 |}, sm1).
Proof.
  intros sm u sm1.
  refine (proj2 (proj2 (proj2 (proj1 (Create_Get sm (str "myrepo") 100
            (Ok (repeat "001"%char 16))) u sm1 _))) 500 _).
  - reflexivity.
  - simpl. lia.
Defined.

(** X3: after [Delete] the UUID is unknown at every later time, the other
    entries and the timeout are untouched, and deleting again changes
    nothing. *)
Theorem Delete_spec (sm : SessionManager) (uuid : list ascii) :
  sessions (Delete sm uuid) !! uuid = None /\
  (forall k, k <> uuid -> sessions (Delete sm uuid) !! k = sessions sm !! k) /\
  timeout (Delete sm uuid) = timeout sm /\
  Delete (Delete sm uuid) uuid = Delete sm uuid /\
  (forall now, Get (Delete sm uuid) uuid now = (Err ErrUploadNotFound, Delete sm uuid)).
Proof.
  assert (E : sessions (Delete sm uuid) !! uuid = None) by apply lookup_delete_eq.
  split; [done|]. split; [|split; [done|split]].
  - intros k Hk. simpl. by rewrite lookup_delete_ne.
  - by apply Delete_absent.
  - intros now. by apply Get_absent.
Qed.

(** ** The session table stays well formed *)

Lemma sessions_wf_empty t : sessions_wf (NewSessionManager t).
Proof. intros k s. simpl. by rewrite lookup_empty. Qed.

Lemma Delete_wf sm uuid : sessions_wf sm -> sessions_wf (Delete sm uuid).
Proof.
  intros Hwf k s. simpl. intros [_ E]%lookup_delete_Some. by apply Hwf.
Qed.

Lemma Get_wf sm uuid now : sessions_wf sm -> sessions_wf (Get sm uuid now).2.
Proof.
  intros Hwf. unfold Get. destruct (sessions sm !! uuid) as [s|]; [|done].
  destruct (timeout sm <? now - StartedAt s); [|done]. by apply Delete_wf.
Qed.

Lemma UpdateBytes_wf sm uuid n :
  0 <= n -> sessions_wf sm -> sessions_wf (UpdateBytes sm uuid n).2.
Proof.
  intros Hn Hwf. unfold UpdateBytes.
  destruct (sessions sm !! uuid) as [s|] eqn:Es; [|done].
  intros k s'. simpl. destruct (decide (uuid = k)) as [<-|Hk].
  - rewrite lookup_insert_eq. intros [= <-]. simpl.
    destruct (Hwf _ _ Es) as (? & ? & _). done.
  - rewrite lookup_insert_ne by done. apply Hwf.
Qed.

Lemma Create_wf sm repository now rnd :
  match rnd with Ok r => length r = 16%nat | Err _ => True end ->
  sessions_wf sm -> sessions_wf (Create sm repository now rnd).2.
Proof.
  intros Hr Hwf. unfold Create.
  destruct (generateUUID rnd) as [u|e] eqn:Eu; [|done].
  destruct rnd as [r|e]; [|done].
  intros k s'. simpl. destruct (decide (u = k)) as [<-|Hk].
  - rewrite lookup_insert_eq. intros [= <-]. simpl.
    split; [done|]. split; [by eapply generateUUID_shaped|done].
  - rewrite lookup_insert_ne by done. apply Hwf.
Qed.

Section EngineInvariants.
Context {S : Type} `{BlobStorage S}.

Lemma run_call_wf (s : OCIStorage S) c :
well_drawn c -> sessions_wf (sm s) -> sessions_wf (sm (run_call s c).2).
Proof.
intros Hc Hwf. destruct c as [repository now rnd|uuid data now|uuid expected now
                             |uuid now|name reference contentType data].
- pose proof (Create_wf (sm s) repository now rnd) as Hg.
  unfold run_call, InitiateUpload.
  destruct (Create (sm s) repository now rnd) as [[uuid|e] sm'];
    simpl in Hg, Hc; (destruct rnd; [specialize (Hg Hc Hwf)|specialize (Hg I Hwf)]);
    try done.
  all: destruct (store_upload _ _ _) as [[e'|] st']; simpl; try done.
  all: by apply Delete_wf.
- pose proof (Get_wf (sm s) uuid now Hwf) as Hg.
  unfold run_call, WriteUploadChunk.
  destruct (Get (sm s) uuid now) as [[session|e] sm']; simpl in Hg; [|done].
  destruct (existingData _ _ _); [|done].
  destruct (ReadAll data); [|done].
  destruct (store_upload _ _ _) as [[e|] st']; simpl; [done|].
  apply UpdateBytes_wf; [lia|done].
- pose proof (Get_wf (sm s) uuid now Hwf) as Hg.
  unfold run_call, CompleteUpload.
  destruct (Get (sm s) uuid now) as [[session|e] sm']; simpl in Hg; [|done].
  destruct (store_download _ _); [|done].
  destruct (ReadAllVerifying _) as [[data|e] vr]; [|done].
  destruct (Verify _ _); [done|].
  destruct (store_upload _ _ _) as [[e|] st']; simpl; [done|].
  by apply Delete_wf.
- pose proof (Get_wf (sm s) uuid now Hwf) as Hg.
  unfold run_call, CancelUpload.
  destruct (Get (sm s) uuid now) as [[session|e] sm']; simpl in Hg; [|done].
  simpl. by apply Delete_wf.
- unfold run_call, PutManifest.
  destruct (ReadAllVerifying _) as [[d|e] vr]; [|done].
  destruct (store_upload _ _ _) as [[e|] st1]; [done|].
  destruct (store_upload _ _ _) as [[e|] st2]; [done|].
  destruct (negb _); [|done].
  by destruct (store_upload _ _ _) as [[e|] st3].
Qed.

(** X4: whatever calls are made on the engine, with whatever store, the
  session table stays well formed: every session is filed under its own
  UUID, that UUID has the shape of a generated one, the byte count is
  not negative, and the scratch object of the session lies at
  v2/uploads/<uuid>/data. *)
Theorem sessions_stay_wf (s : OCIStorage S) (cs : list call) :
sessions_wf (sm s) ->
Forall well_drawn cs ->
sessions_wf (sm (run_calls s cs)) /\
forall k session,
  sessions (sm (run_calls s cs)) !! k = Some session ->
  UploadDataPath k = str "v2/uploads/" ++ k ++ str "/data".
Proof.
intros Hwf Hcs.
assert (Hwf' : sessions_wf (sm (run_calls s cs))).
{ revert s Hwf. induction Hcs as [|c cs Hc Hcs IH]; intros s Hwf; [done|].
  unfold run_calls. cbn [fold_left]. apply IH. by apply run_call_wf. }
split; [done|]. intros k session Hk.
destruct (Hwf' k session Hk) as (_ & Hshape & _).
by apply UploadDataPath_plain, uuid_shaped_plain.
Qed.

(** X5: on an upload whose session has expired, writing a chunk,
  completing and cancelling all fail with [ErrUploadNotFound] and remove
  the session, and none of them touches the store: the scratch object is
  left behind, also by the cancel. *)
Theorem expired_upload (s : OCIStorage S) (uuid : list ascii) (session : UploadSession)
  (now : Z) :
sessions (sm s) !! uuid = Some session ->
timeout (sm s) < now - StartedAt session ->
let s' := {| store := store s; sm := Delete (sm s) uuid |} in
(forall data, WriteUploadChunk s uuid data now = (Err ErrUploadNotFound, s')) /\
(forall expected, CompleteUpload s uuid expected now = (Err ErrUploadNotFound, s')) /\
CancelUpload s uuid now = (Some ErrUploadNotFound, s') /\
sessions (sm s') !! uuid = None.
Proof.
intros Hs Ht s'.
assert (Hg : Get (sm s) uuid now = (Err ErrUploadNotFound, Delete (sm s) uuid)).
{ apply Get_dead. right. by exists session. }
unfold WriteUploadChunk, CompleteUpload, CancelUpload. rewrite Hg.
repeat split; try done. simpl. apply lookup_delete_eq.
Qed.

(** X6: when the scratch object cannot be created, [InitiateUpload] fails
  with the error of the store wrapped, and the session it had created is
  taken back: the UUID is not in the table and every other entry is as
  before. *)
Theorem InitiateUpload_rollback (s : OCIStorage S) (repository : list ascii) (now : Z)
  (rnd : result (list ascii)) (uuid : list ascii) (e : error) (st' : S) :
generateUUID rnd = Ok uuid ->
store_upload (UploadDataPath uuid) [] (store s) = (Some e, st') ->
exists e' s',
  InitiateUpload s repository now rnd = (Err e', s') /\
  errors_Is e' e = true /\
  store s' = st' /\
  sessions (sm s') !! uuid = None /\
  (forall k, k <> uuid -> sessions (sm s') !! k = sessions (sm s) !! k).
Proof.
intros Hu Hup. unfold InitiateUpload, Create. rewrite Hu, Hup.
eexists _, _. split; [done|]. split; [apply errors_Is_Wrap, errors_Is_refl|].
split; [done|]. simpl. split.
- apply lookup_delete_eq.
- intros k Hk. by rewrite lookup_delete_ne, lookup_insert_ne.
Qed.

(** X7: a chunk whose body cannot be read to the end is not written: the
  call fails with the reader's error wrapped, and store and session of a
  live upload are as before. *)
Theorem WriteUploadChunk_read_error (s : OCIStorage S) (uuid : list ascii)
  (session : UploadSession) (data : Reader) (e : error) (now : Z) (old : list ascii) :
sessions (sm s) !! uuid = Some session ->
now - StartedAt session <= timeout (sm s) ->
existingData (store s) (UploadDataPath uuid) session = Ok old ->
rd_err data = Some e ->
exists e',
  WriteUploadChunk s uuid data now = (Err e', s) /\ errors_Is e' e = true.
Proof.
intros Hs Ht Hold He. unfold WriteUploadChunk.
rewrite (Get_live _ _ _ session), Hold by done.
unfold ReadAll. rewrite He. eexists. split; [by destruct s|].
apply errors_Is_Wrap, errors_Is_refl.
Qed.

(** X8: [CompleteUpload] succeeds only on a verified upload: the digest it
  returns is the expected one and is the sha256 of the scratch contents
  it read, which is what it stored at the blob path; afterwards the
  session is gone, and another write, complete or cancel on the UUID
  fails with [ErrUploadNotFound]. *)
Theorem CompleteUpload_success (s : OCIStorage S) (uuid : list ascii)
  (expected d : DigestInfo) (now : Z) (s' : OCIStorage S) :
CompleteUpload s uuid expected now = (Ok d, s') ->
d = expected /\
(exists rc data,
   store_download (UploadDataPath uuid) (store s) = Ok rc /\
   ReadAll rc = Ok data /\
   expected = computeSHA256 data /\
   store s' = (store_delete (UploadDataPath uuid)
                 (store_upload (BlobDataPath expected) data (store s)).2).2) /\
sessions (sm s') !! uuid = None /\
(forall c, call_on uuid c -> run_call s' c = (Some ErrUploadNotFound, s')).
Proof.
intros Hc. unfold CompleteUpload in Hc.
destruct (Get (sm s) uuid now) as [[session|e] sm'] eqn:Hg; [|done].
destruct (store_download _ _) as [rc|e] eqn:Hd; [|done].
unfold ReadAllVerifying in Hc.
destruct (ReadAll rc) as [data|e] eqn:Hr; [|done].
destruct (Verify _ _) as [e|] eqn:Hv; [done|].
destruct (store_upload _ _ _) as [[e|] st'] eqn:Hu; [done|].
injection Hc as <- <-.
assert (Hdata : rd_data rc = data).
{ unfold ReadAll in Hr. destruct (rd_err rc); congruence. }
assert (Hexp : expected = computeSHA256 data).
{ destruct (decide (expected = computeSHA256 data)) as [|Hne]; [done|].
  destruct (Verify_mismatch {| hashed := rd_data rc;
                               size := Z.of_nat (length (rd_data rc)) |} expected)
    as (e & He & _); [|congruence].
  unfold Digest. simpl. by rewrite Hdata. }
assert (Hgone : sessions (Delete sm' uuid) !! uuid = None) by apply lookup_delete_eq.
split; [done|]. split; [|split; [done|]].
- exists rc, data. cbn [store]. by rewrite Hu.
- intros c Hcall. by apply (run_call_unknown _ uuid).
Qed.

End EngineInvariants.

Lemma sessions_stay_wf_witness :
  let cs := [CallInitiate (str "myrepo") 0 (Ok (repeat "001"%char 16));
             CallWrite (str "01010101-0101-4101-8101-010101010101")
               (NewReader (str "abc")) 1] in
  sessions_wf (sm (run_calls emptyRegistry cs)).
Proof.
  intros cs. apply (sessions_stay_wf emptyRegistry cs).
  - apply sessions_wf_empty.
  - repeat constructor.
Defined.

Lemma expired_upload_witness :
  let u := str "01010101-0101-4101-8101-010101010101" in
  let s := (InitiateUpload emptyRegistry (str "myrepo") 0 (Ok (repeat "001"%char 16))).2 in
  CancelUpload s u 5000 = (Some ErrUploadNotFound, {| store := store s; sm := Delete (sm s) u |}).
Proof.
  intros u s.
  refine (proj1 (proj2 (proj2 (expired_upload s u
            {| UUID := u; Repository := str "myrepo"; StartedAt := 0; BytesWritten := 0 |}
            5000 _ _)))).
  - vm_compute. reflexivity.
  - vm_compute. reflexivity.
Defined.

Lemma InitiateUpload_rollback_witness :
  let s : OCIStorage FullStore := NewOCIStorage (mkFull ∅) (NewSessionManager 1800) in
  let u := str "01010101-0101-4101-8101-010101010101" in
  exists e' s',
    InitiateUpload s (str "myrepo") 0 (Ok (repeat "001"%char 16)) = (Err e', s') /\
    errors_Is e' (ErrOther (str "no space left on device")) = true /\
    store s' = mkFull ∅ /\
    sessions (sm s') !! u = None /\
    (forall k, k <> u -> sessions (sm s') !! k = sessions (sm s) !! k).
Proof.
  intros s u.
  apply (InitiateUpload_rollback s (str "myrepo") 0 (Ok (repeat "001"%char 16)) u
           (ErrOther (str "no space left on device")) (mkFull ∅)).
  - vm_compute. reflexivity.
  - reflexivity.
Defined.

Lemma WriteUploadChunk_read_error_witness :
  let u := str "01010101-0101-4101-8101-010101010101" in
  let s := (InitiateUpload emptyRegistry (str "myrepo") 0 (Ok (repeat "001"%char 16))).2 in
  let body := {| rd_data := str "par"; rd_err := Some (ErrOther (str "unexpected EOF")) |} in
  exists e',
    WriteUploadChunk s u body 1 = (Err e', s) /\
    errors_Is e' (ErrOther (str "unexpected EOF")) = true.
Proof.
  intros u s body.
  apply (WriteUploadChunk_read_error s u
           {| UUID := u; Repository := str "myrepo"; StartedAt := 0; BytesWritten := 0 |}
           body (ErrOther (str "unexpected EOF")) 1 []).
  - vm_compute. reflexivity.
  - vm_compute. discriminate.
  - reflexivity.
  - reflexivity.
Defined.

Lemma CompleteUpload_success_witness :
  let u := str "01010101-0101-4101-8101-010101010101" in
  let s1 := (InitiateUpload emptyRegistry (str "myrepo") 0 (Ok (repeat "001"%char 16))).2 in
  exists s2 s3,
    WriteUploadChunk s1 u (NewReader (str "abc")) 1 = (Ok 3, s2) /\
    CompleteUpload s2 u (computeSHA256 (str "abc")) 2 = (Ok (computeSHA256 (str "abc")), s3) /\
    sessions (sm s3) !! u = None.
Proof.
  intros u s1.
  assert (E1 : InitiateUpload emptyRegistry (str "myrepo") 0 (Ok (repeat "001"%char 16))
               = (Ok u, s1)) by reflexivity.
  destruct (InitiateUpload_uploading _ _ _ _ _ _ E1) as (Hp & Hu & Ht).
  destruct (WriteUploadChunk_uploading s1 u 0 [] (str "abc") 1 Hu)
    as (s2 & E2 & Hu2 & Ht2).
  { rewrite Ht. simpl. lia. }
  destruct (CompleteUpload_uploading s2 u 0 (str "abc") 2 Hp Hu2) as (s3 & E3 & _).
  { rewrite Ht2, Ht. simpl. lia. }
  exists s2, s3. split; [exact E2|]. split; [exact E3|].
  exact (proj1 (proj2 (proj2 (CompleteUpload_success s2 u (computeSHA256 (str "abc"))
                                (computeSHA256 (str "abc")) 2 s3 E3)))).
Defined.

(** ** Digests and the blob path *)

Lemma Verify_mismatch_error vr expected :
  expected <> Digest vr ->
  exists msg, Verify vr expected = Some (Wrap msg ErrDigestMismatch).
Proof.
  intros Hne. destruct (Verify_mismatch vr expected Hne) as (e & He & _).
  unfold Verify in *. destruct (_ || _); [|done]. by eexists.
Qed.



Lemma az09_plain_byte c : az09 c = true -> plain_byte c = true.
Proof.
  intros Hc. unfold plain_byte. apply andb_true_iff.
  split; apply negb_true_iff, Ascii.eqb_neq; intros ->; vm_compute in Hc; done.
Qed.

Lemma ParseDigest_inv s d :
  ParseDigest s = Ok d -> digest_shape (strings.TrimSpace s) (Algorithm d) (Hex d).
Proof.
  unfold ParseDigest.
  destruct (FindStringSubmatch (strings.TrimSpace s)) as [[alg hx]|] eqn:E; [|done].
  intros [= <-]. by apply FindStringSubmatch_shape.
Qed.

Lemma ParseDigest_plain s d :
  ParseDigest s = Ok d -> plain (Algorithm d) /\ plain (Hex d) /\ plain (ShortHex d).
Proof.
  intros (_ & Ha & Hall & Hh & Hhall)%ParseDigest_inv.
  assert (Hp : plain (Hex d)) by by apply hex_plain.
  split; [|split; [done|]].
  - split; [done|]. eapply forallb_impl; [apply az09_plain_byte|done].
  - unfold ShortHex. destruct (_ <? _)%nat; [done|].
    apply hex_plain; [by destruct (Hex d)|by apply forallb_take].
Qed.

Lemma ShortHex_take d : ShortHex d = take 2 (Hex d).
Proof.
  unfold ShortHex. destruct (Nat.ltb_spec (length (Hex d)) 2); [|done].
  rewrite take_ge; [done|lia].
Qed.

Lemma BlobDataPath_elements s d :
  ParseDigest s = Ok d ->
  BlobDataPath d
  = join [path.slash] [str "v2"; str "blobs"; Algorithm d; ShortHex d; Hex d; str "data"] /\
  Forall plain [str "v2"; str "blobs"; Algorithm d; ShortHex d; Hex d; str "data"].
Proof.
  intros (Ha & Hh & Hs)%ParseDigest_plain.
  assert (Hall : Forall plain
            [str "v2"; str "blobs"; Algorithm d; ShortHex d; Hex d; str "data"]).
  { plain_list; done. }
  split; [|done]. unfold BlobDataPath.
  rewrite (Join_filter _ [str "v2/blobs"; Algorithm d; ShortHex d; Hex d; str "data"]).
  - change (join [path.slash] [str "v2/blobs"; Algorithm d; ShortHex d; Hex d; str "data"])
      with (join [path.slash]
              [str "v2"; str "blobs"; Algorithm d; ShortHex d; Hex d; str "data"]).
    by rewrite Clean_plain.
  - apply filter_nonempty_id. repeat constructor; try done; [apply Ha|apply Hs|apply Hh].
  - done.
Qed.

Lemma BlobDataPath_inj s d s' d' :
  ParseDigest s = Ok d -> ParseDigest s' = Ok d' ->
  BlobDataPath d = BlobDataPath d' -> d = d'.
Proof.
  intros Hd Hd' Heq.
  destruct (BlobDataPath_elements s d Hd) as [E Hall].
  destruct (BlobDataPath_elements s' d' Hd') as [E' Hall'].
  rewrite E, E' in Heq. apply (f_equal (split path.slash)) in Heq.
  rewrite !split_join_plain in Heq by done.
  injection Heq as Ha _ Hh. destruct d, d'. simpl in *. by subst.
Qed.

(** X10: for a digest that [ParseDigest] returned, the blob path is
    v2/blobs/<algorithm>/<first two bytes of hex, or all of it when
    shorter>/<hex>/data, and two parsed digests with the same blob path
    are the same digest. *)
Theorem BlobDataPath_parsed (s : list ascii) (d : DigestInfo) :
  ParseDigest s = Ok d ->
  BlobDataPath d
  = str "v2/blobs/" ++ Algorithm d ++ str "/" ++ take 2 (Hex d) ++ str "/" ++ Hex d
    ++ str "/data" /\
  (length (ShortHex d) <= 2)%nat /\
  forall s' d', ParseDigest s' = Ok d' -> BlobDataPath d = BlobDataPath d' -> d = d'.
Proof.
  intros Hd. destruct (BlobDataPath_elements s d Hd) as [E Hall].
  split; [|split].
  - rewrite E, ShortHex_take. reflexivity.
  - rewrite ShortHex_take, length_take. lia.
  - intros s' d' Hd' Heq. by apply (BlobDataPath_inj s d s' d').
Qed.

Lemma BlobDataPath_parsed_witness :
  BlobDataPath {| Algorithm := str "sha256"; Hex := str "a" |}
  = str "v2/blobs/" ++ str "sha256" ++ str "/" ++ take 2 (str "a") ++ str "/" ++ str "a"
    ++ str "/data".
Proof.
  refine (proj1 (BlobDataPath_parsed (str " sha256:a") _ _)).
  vm_compute. reflexivity.
Defined.


(** ** Uploads through the engine and through the handlers *)

Lemma ParseDigest_nonempty s d : ParseDigest s = Ok d -> s <> [].
Proof. intros E ->. vm_compute in E. discriminate. Qed.

Lemma mismatch_not_unknown msg :
  errors_Is (Wrap msg ErrDigestMismatch) ErrUploadNotFound = false /\
  errors_Is (Wrap msg ErrDigestMismatch) ErrDigestMismatch = true.
Proof.
  split; reflexivity.
Qed.

Section UploadFacts.
Context {S : Type} `{ReliableStore S}.

(** X11: on a store that honours its contract, a chunk written to a live
  upload is appended: the call returns the new total size, the scratch
  holds the old contents followed by the chunk, the session counts
  that many bytes and keeps its start time, and no other session and no
  other path of the store changes. *)
Theorem WriteUploadChunk_appends (s : OCIStorage S) (uuid : list ascii) (started : Z)
  (acc chunk : list ascii) (now : Z) :
uploading s uuid started acc ->
now - started <= timeout (sm s) ->
exists s',
  WriteUploadChunk s uuid (NewReader chunk) now
    = (Ok (Z.of_nat (length acc) + Z.of_nat (length chunk)), s') /\
  uploading s' uuid started (acc ++ chunk) /\
  timeout (sm s') = timeout (sm s) /\
  (forall k, k <> uuid -> sessions (sm s') !! k = sessions (sm s) !! k) /\
  (forall q, q <> UploadDataPath uuid ->
     store_download q (store s') = store_download q (store s)).
Proof.
intros Hu Ht.
destruct (WriteUploadChunk_uploading s uuid started acc chunk now Hu Ht)
  as (s' & E & Hu' & Ht').
exists s'. rewrite E, length_app, Nat2Z.inj_add. split; [done|].
split; [done|]. split; [done|].
destruct Hu as [(session & Hs & Hst & Hbw) Hd].
unfold WriteUploadChunk in E.
rewrite (Get_live _ _ _ session) in E by (by rewrite ?Hst).
destruct (existingData _ _ _) as [old|]; [|done].
change (ReadAll (NewReader chunk)) with (Ok chunk) in E. cbv beta iota in E.
rewrite upload_ok in E. injection E as _ <-. cbn [sm store].
unfold UpdateBytes. rewrite Hs. cbn [snd sessions]. split.
- intros k Hk. by rewrite lookup_insert_ne.
- intros q Hq. by rewrite download_upload_ne.
Qed.

Lemma finishBlobUpload_outcome (h : OCIStorage S) uuid started data expected now :
plain uuid ->
uploading h uuid started data ->
now - started <= timeout (sm h) ->
let r := handlers.finishBlobUpload h uuid expected now in
(expected = computeSHA256 data ->
   r.1 = handlers.respond handlers.StatusCreated (Some (String_ expected)) [] /\
   GetBlob r.2 expected = Ok (NewReader data) /\
   sessions (sm r.2) !! uuid = None) /\
(expected <> computeSHA256 data ->
   r.1 = handlers.respondOCIError handlers.StatusBadRequest
           handlers.OCIErrorDigestInvalid "digest mismatch" /\
   r.2 = h).
Proof.
intros Hp Hu Ht r. subst r. unfold handlers.finishBlobUpload. split.
- intros ->.
  destruct (CompleteUpload_uploading h uuid started data now Hp Hu Ht)
    as (s' & -> & Hg & Hs). done.
- intros Hne. destruct Hu as [(session & Hs & Hst & Hbw) Hd].
  unfold CompleteUpload.
  rewrite (Get_live _ _ _ session) by (by rewrite ?Hst).
  rewrite Hd.
  change (ReadAllVerifying (NewReader data))
    with (Ok data, {| hashed := data; size := Z.of_nat (length data) |}).
  cbv beta iota.
  destruct (Verify_mismatch_error
              {| hashed := data; size := Z.of_nat (length data) |} expected Hne)
    as (msg & ->).
  destruct (mismatch_not_unknown msg) as [-> ->]. by destruct h.
Qed.

(** X12: a PUT that completes a live upload and carries a body (content
  length positive, or -1 for chunked) first appends the body to the
  scratch.  When the digest given is the sha256 of old contents plus
  body the answer is 201 with that digest, the blob reads back as those
  bytes and the session is gone; otherwise the answer is 400
  DIGEST_INVALID and the upload stays live with the body appended. *)
Theorem CompleteBlobUpload_with_body (h : OCIStorage S) (uuid digestStr : list ascii)
  (expected : DigestInfo) (started : Z) (acc body : list ascii)
  (contentLength now now1 : Z) :
plain uuid ->
uploading h uuid started acc ->
ParseDigest digestStr = Ok expected ->
0 < contentLength \/ contentLength = -1 ->
now - started <= timeout (sm h) ->
now1 - started <= timeout (sm h) ->
let r := handlers.CompleteBlobUpload h uuid digestStr contentLength (NewReader body)
           now now1 in
(expected = computeSHA256 (acc ++ body) ->
   r.1 = handlers.respond handlers.StatusCreated (Some (String_ expected)) [] /\
   GetBlob r.2 expected = Ok (NewReader (acc ++ body)) /\
   sessions (sm r.2) !! uuid = None) /\
(expected <> computeSHA256 (acc ++ body) ->
   r.1 = handlers.respondOCIError handlers.StatusBadRequest
           handlers.OCIErrorDigestInvalid "digest mismatch" /\
   uploading r.2 uuid started (acc ++ body)).
Proof.
intros Hp Hu Hd Hlen Ht Ht1 r. subst r. unfold handlers.CompleteBlobUpload.
unfold bytes_eqb. rewrite bool_decide_eq_false_2 by by eapply ParseDigest_nonempty.
rewrite Hd.
assert (Hb : (0 <? contentLength) || (contentLength =? -1) = true).
{ apply orb_true_iff. destruct Hlen; [left; by apply Z.ltb_lt|right; by apply Z.eqb_eq]. }
rewrite Hb.
destruct (WriteUploadChunk_uploading h uuid started acc body now Hu Ht)
  as (h1 & -> & Hu1 & Ht1').
rewrite <- Ht1' in Ht1.
destruct (finishBlobUpload_outcome h1 uuid started (acc ++ body) expected now1 Hp Hu1 Ht1)
  as [Hok Hbad].
split; [exact Hok|]. intros Hne. destruct (Hbad Hne) as [E1 E2].
split; [done|]. by rewrite E2.
Qed.

(** X13: a monolithic upload (POST with a digest) whose random source and
  body are fine answers 201 with the digest when it is the sha256 of
  the body, and the blob then reads back as the body with no session
  left; with any other digest that parses it answers 400 DIGEST_INVALID
  and leaves the session and the scratch holding the body behind. *)
Theorem monolithic_upload (h : OCIStorage S) (name digestStr : list ascii)
  (expected : DigestInfo) (body : list ascii) (now now1 now2 : Z)
  (rnd : result (list ascii)) (uuid : list ascii) :
ParseDigest digestStr = Ok expected ->
generateUUID rnd = Ok uuid ->
now1 - now <= timeout (sm h) ->
now2 - now <= timeout (sm h) ->
let r := handlers.InitiateBlobUpload h name digestStr (NewReader body) now now1 now2 rnd in
(expected = computeSHA256 body ->
   r.1 = handlers.respond handlers.StatusCreated (Some (String_ expected)) [] /\
   GetBlob r.2 expected = Ok (NewReader body) /\
   sessions (sm r.2) !! uuid = None) /\
(expected <> computeSHA256 body ->
   r.1 = handlers.respondOCIError handlers.StatusBadRequest
           handlers.OCIErrorDigestInvalid "digest mismatch" /\
   uploading r.2 uuid now body).
Proof.
intros Hd Hu Ht1 Ht2 r. subst r.
unfold handlers.InitiateBlobUpload, handlers.handleMonolithicUpload.
unfold bytes_eqb. rewrite bool_decide_eq_false_2 by by eapply ParseDigest_nonempty.
cbn [negb]. rewrite Hd.
destruct (InitiateUpload h name now rnd) as [[u|e] h1] eqn:Ei.
2: { unfold InitiateUpload, Create in Ei. rewrite Hu, upload_ok in Ei. done. }
assert (u = uuid) as ->.
{ unfold InitiateUpload, Create in Ei. rewrite Hu, upload_ok in Ei. congruence. }
destruct (InitiateUpload_uploading _ _ _ _ _ _ Ei) as (Hp & Hup & Ht0).
rewrite <- Ht0 in Ht1, Ht2.
destruct (WriteUploadChunk_uploading h1 uuid now [] body now1 Hup Ht1)
  as (h2 & -> & Hu2 & Ht2').
rewrite <- Ht2' in Ht2. cbn [app] in Hu2.
destruct (Hu2) as [(session & Hs & Hst & Hbw) Hdl].
split.
- intros ->.
  destruct (CompleteUpload_uploading h2 uuid now body now2 Hp Hu2 Ht2)
    as (h3 & -> & Hg & Hgone). done.
- intros Hne. unfold CompleteUpload.
  rewrite (Get_live _ _ _ session) by (by rewrite ?Hst).
  rewrite Hdl.
  change (ReadAllVerifying (NewReader body))
    with (Ok body, {| hashed := body; size := Z.of_nat (length body) |}).
  cbv beta iota.
  destruct (Verify_mismatch_error
              {| hashed := body; size := Z.of_nat (length body) |} expected Hne)
    as (msg & ->).
  destruct (mismatch_not_unknown msg) as [_ ->]. cbn [fst snd].
  split; [done|]. by destruct h2.
Qed.

End UploadFacts.

Section UnknownUploads.
Context {S : Type} `{BlobStorage S}.

Lemma unknown_upload_responses (h : OCIStorage S) uuid :
sessions (sm h) !! uuid = None ->
let unknown := handlers.respondOCIError handlers.StatusNotFound
                 handlers.OCIErrorBlobUploadUnknown "upload not found" in
(forall body now, handlers.PatchBlobUpload h uuid body now = (unknown, h)) /\
(forall digestStr expected contentLength body now now1,
   ParseDigest digestStr = Ok expected ->
   handlers.CompleteBlobUpload h uuid digestStr contentLength body now now1
   = (unknown, h)) /\
(forall now, handlers.CancelBlobUpload h uuid now = (unknown, h)).
Proof.
intros Hs unknown.
assert (Hw : forall body now, WriteUploadChunk h uuid body now = (Err ErrUploadNotFound, h)).
{ intros. unfold WriteUploadChunk. rewrite Get_absent by done. by destruct h. }
assert (Hc : forall d now, CompleteUpload h uuid d now = (Err ErrUploadNotFound, h)).
{ intros. unfold CompleteUpload. rewrite Get_absent by done. by destruct h. }
assert (Hx : forall now, CancelUpload h uuid now = (Some ErrUploadNotFound, h)).
{ intros. unfold CancelUpload. rewrite Get_absent by done. by destruct h. }
split; [|split].
- intros body now. unfold handlers.PatchBlobUpload. by rewrite Hw.
- intros digestStr expected contentLength body now now1 Hd.
  unfold handlers.CompleteBlobUpload, handlers.finishBlobUpload.
  unfold bytes_eqb. rewrite bool_decide_eq_false_2 by by eapply ParseDigest_nonempty.
  rewrite Hd, Hw, Hc. by destruct (_ || _).
- intros now. unfold handlers.CancelBlobUpload. by rewrite Hx.
Qed.

(** X14: once a DELETE on an upload has answered 204, every later PATCH,
  PUT with a digest that parses, and DELETE on that upload answers 404
  BLOB_UPLOAD_UNKNOWN and changes nothing, whatever calls that do not
  draw the same UUID again came in between. *)
Theorem cancelled_upload_is_unknown (h : OCIStorage S) (uuid : list ascii) (now : Z)
  (later : list call) :
handlers.Status (handlers.CancelBlobUpload h uuid now).1 = handlers.StatusNoContent ->
Forall (draws_other uuid) later ->
let h' := run_calls (handlers.CancelBlobUpload h uuid now).2 later in
let unknown := handlers.respondOCIError handlers.StatusNotFound
                 handlers.OCIErrorBlobUploadUnknown "upload not found" in
(forall body t, handlers.PatchBlobUpload h' uuid body t = (unknown, h')) /\
(forall digestStr expected contentLength body t t1,
   ParseDigest digestStr = Ok expected ->
   handlers.CompleteBlobUpload h' uuid digestStr contentLength body t t1
   = (unknown, h')) /\
(forall t, handlers.CancelBlobUpload h' uuid t = (unknown, h')).
Proof.
intros Hst Hl h' unknown. apply unknown_upload_responses.
apply run_calls_gone; [done|].
unfold handlers.CancelBlobUpload, CancelUpload in *.
destruct (Get (sm h) uuid now) as [[session|e] sm'] eqn:Hg.
- simpl. apply lookup_delete_eq.
- exfalso. simpl in Hst. destruct (errors_Is e ErrUploadNotFound); discriminate.
Qed.

End UnknownUploads.

Lemma upload_example_state :
  let u := str "01010101-0101-4101-8101-010101010101" in
  let s := (InitiateUpload emptyRegistry (str "myrepo") 0 (Ok (repeat "001"%char 16))).2 in
  plain u /\ uploading s u 0 [] /\ timeout (sm s) = 1800.
Proof.
  intros u s.
  assert (E : InitiateUpload emptyRegistry (str "myrepo") 0 (Ok (repeat "001"%char 16))
              = (Ok u, s)) by reflexivity.
  by destruct (InitiateUpload_uploading _ _ _ _ _ _ E) as (? & ? & ->).
Qed.

Lemma WriteUploadChunk_appends_witness :
  let u := str "01010101-0101-4101-8101-010101010101" in
  let s := (InitiateUpload emptyRegistry (str "myrepo") 0 (Ok (repeat "001"%char 16))).2 in
  exists s',
    WriteUploadChunk s u (NewReader (str "hello")) 7 = (Ok (0 + 5), s') /\
    uploading s' u 0 (str "hello").
Proof.
  intros u s. destruct upload_example_state as (Hp & Hu & Ht). fold u s in Hp, Hu, Ht.
  destruct (WriteUploadChunk_appends s u 0 [] (str "hello") 7 Hu) as (s' & E & Hu' & _).
  { rewrite Ht. lia. }
  by exists s'.
Defined.

Lemma CompleteBlobUpload_with_body_witness :
  let u := str "01010101-0101-4101-8101-010101010101" in
  let s := (InitiateUpload emptyRegistry (str "myrepo") 0 (Ok (repeat "001"%char 16))).2 in
  let r := handlers.CompleteBlobUpload s u (str "sha256:00") 5 (NewReader (str "hello")) 7 8 in
  r.1 = handlers.respondOCIError handlers.StatusBadRequest
          handlers.OCIErrorDigestInvalid "digest mismatch" /\
  uploading r.2 u 0 (str "hello").
Proof.
  intros u s r. destruct upload_example_state as (Hp & Hu & Ht). fold u s in Hp, Hu, Ht.
  refine (proj2 (CompleteBlobUpload_with_body s u (str "sha256:00")
                   {| Algorithm := str "sha256"; Hex := str "00" |} 0 [] (str "hello")
                   5 7 8 Hp Hu _ _ _ _) _).
  - vm_compute. reflexivity.
  - left. lia.
  - rewrite Ht. lia.
  - rewrite Ht. lia.
  - intros E. apply (f_equal Hex) in E. vm_compute in E. discriminate.
Defined.

Lemma monolithic_upload_witness :
  let u := str "01010101-0101-4101-8101-010101010101" in
  let r := handlers.InitiateBlobUpload emptyRegistry (str "myrepo") (str "sha256:00")
             (NewReader (str "some data")) 0 1 2 (Ok (repeat "001"%char 16)) in
  r.1 = handlers.respondOCIError handlers.StatusBadRequest
          handlers.OCIErrorDigestInvalid "digest mismatch" /\
  uploading r.2 u 0 (str "some data").
Proof.
  intros u r.
  refine (proj2 (monolithic_upload emptyRegistry (str "myrepo") (str "sha256:00")
                   {| Algorithm := str "sha256"; Hex := str "00" |} (str "some data")
                   0 1 2 (Ok (repeat "001"%char 16)) u _ _ _ _) _).
  - vm_compute. reflexivity.
  - vm_compute. reflexivity.
  - simpl. lia.
  - simpl. lia.
  - intros E. apply (f_equal Hex) in E. vm_compute in E. discriminate.
Defined.

Lemma cancelled_upload_is_unknown_witness :
  let u := str "01010101-0101-4101-8101-010101010101" in
  let s := (InitiateUpload emptyRegistry (str "myrepo") 0 (Ok (repeat "001"%char 16))).2 in
  let h' := run_calls (handlers.CancelBlobUpload s u 1).2 [] in
  handlers.PatchBlobUpload h' u (NewReader (str "late")) 2
  = (handlers.respondOCIError handlers.StatusNotFound
       handlers.OCIErrorBlobUploadUnknown "upload not found", h').
Proof.
  intros u s h'.
  refine (proj1 (cancelled_upload_is_unknown s u 1 [] _ _) (NewReader (str "late")) 2).
  - destruct upload_example_state as (Hp & [(session & Hs & Hst & _) _] & Ht).
    fold u s in Hs, Ht. unfold handlers.CancelBlobUpload, CancelUpload.
    rewrite (Get_live _ _ _ session); [reflexivity|done|]. rewrite Hst, Ht. lia.
  - constructor.
Defined.

(** ** Manifests: revisions, tags and the handlers *)

Lemma Sum256_length data : length (sha256.Sum256 data) = 32%nat.
Proof.
  unfold sha256.Sum256.
  destruct (sha256.blocks _ _ _) as [[[[[[[a b] c] d] e] f] g] h]. reflexivity.
Qed.

Lemma Sprintf_x_length b : length (Sprintf_x b) = (2 * length b)%nat.
Proof.
  induction b as [|c b IH]; [done|].
  change (Sprintf_x (c :: b)) with ([hexdigit (byte_val c / 16); hexdigit (byte_val c mod 16)]
                                      ++ Sprintf_x b).
  rewrite length_app, IH. simpl. lia.
Qed.

Lemma sha_Hex_length data : length (Hex (computeSHA256 data)) = 64%nat.
Proof. unfold computeSHA256. simpl. by rewrite Sprintf_x_length, Sum256_length. Qed.

Lemma sha_blob_inj b1 b2 :
  BlobDataPath (computeSHA256 b1) = BlobDataPath (computeSHA256 b2) ->
  computeSHA256 b1 = computeSHA256 b2.
Proof.
  apply (BlobDataPath_inj (String_ (computeSHA256 b1)) _ (String_ (computeSHA256 b2)));
    apply sha_ParseDigest.
Qed.

Lemma sha_revision_inj name1 name2 b1 b2 :
  ManifestRevisionLinkPath name1 (computeSHA256 b1)
  = ManifestRevisionLinkPath name2 (computeSHA256 b2) ->
  computeSHA256 b1 = computeSHA256 b2.
Proof.
  destruct (ManifestRevisionLinkPath_hex name1 (computeSHA256 b1)) as [p1 ->];
    [apply sha_Hex_plain|].
  destruct (ManifestRevisionLinkPath_hex name2 (computeSHA256 b2)) as [p2 ->];
    [apply sha_Hex_plain|].
  intros E. apply app_inj_2 in E as [_ E].
  - apply app_inv_tail in E. unfold computeSHA256 in *. simpl in E. by rewrite E.
  - by rewrite !length_app, !sha_Hex_length.
Qed.

Section ManifestFacts.
Context {S : Type} `{ReliableStore S}.

(** X15: pushing a second manifest under the same tag moves the tag and
  leaves the first revision alone: by tag the second manifest is
  returned, and each of the two is still returned under its own digest
  with its own content type, provided the two digests differ. *)
Theorem tag_moves_revision_stays (s : OCIStorage S)
  (name tag ct1 b1 ct2 b2 : list ascii) :
isDigestReference tag = false ->
computeSHA256 b1 <> computeSHA256 b2 ->
let d1 := computeSHA256 b1 in
let d2 := computeSHA256 b2 in
let s1 := (PutManifest s name tag ct1 b1).2 in
let s2 := (PutManifest s1 name tag ct2 b2).2 in
GetManifest s1 name tag = Ok (b1, d1, reported_type ct1) /\
GetManifest s2 name tag = Ok (b2, d2, reported_type ct2) /\
GetManifest s2 name (String_ d2) = Ok (b2, d2, reported_type ct2) /\
GetManifest s2 name (String_ d1) = Ok (b1, d1, reported_type ct1).
Proof.
intros Htag Hne d1 d2 s1 s2.
destruct (PutManifest_tag_store s name tag ct1 b1 Htag) as (_ & Hl1 & Hr1 & Hb1).
destruct (PutManifest_tag_store s1 name tag ct2 b2 Htag) as (_ & Hl2 & Hr2 & Hb2).
fold s1 in Hl1, Hr1, Hb1. fold s2 in Hl2, Hr2, Hb2.
split; [by apply GetManifest_by_tag|].
split; [by apply GetManifest_by_tag|].
split; [by apply GetManifest_by_digest|].
apply GetManifest_by_digest.
- rewrite <- Hr1. subst s2. rewrite PutManifest_run, Htag. cbn [snd store].
  unfold with_revision. rewrite !download_upload_ne; [done| | |].
  + apply blob_ne_revision.
  + intros E. by apply sha_revision_inj in E.
  + intros E. symmetry in E. revert E.
    apply revision_ne_tag; [apply sha_Hex_plain|apply Sprintf_x_af09].
- rewrite <- Hb1. subst s2. rewrite PutManifest_run, Htag. cbn [snd store].
  unfold with_revision. rewrite !download_upload_ne; [done| | |].
  + intros E. by apply sha_blob_inj in E.
  + intros E. symmetry in E. by apply blob_ne_revision in E.
  + intros E. symmetry in E. by apply blob_ne_tag in E.
Qed.

(** X16: a manifest PUT through the handler under a tag answers 201 with
  the sha256 digest of the body; a missing Content-Type is stored as
  the OCI manifest type.  GET by the tag and by the digest then answer
  200 with the body and that digest, and HEAD answers 200 with the
  digest and no body. *)
Theorem manifest_push_pull (h : OCIStorage S) (name tag contentType data : list ascii) :
isDigestReference tag = false ->
let d := computeSHA256 data in
let r := handlers.PutManifest h name tag contentType (NewReader data) in
let stored := if bytes_eqb contentType [] then defaultManifestType else contentType in
r.1 = handlers.respond handlers.StatusCreated (Some (String_ d)) [] /\
GetManifest r.2 name tag = Ok (data, d, reported_type stored) /\
handlers.GetManifest r.2 name tag = handlers.respond handlers.StatusOK (Some (String_ d)) data /\
handlers.GetManifest r.2 name (String_ d)
  = handlers.respond handlers.StatusOK (Some (String_ d)) data /\
handlers.HeadManifest r.2 name tag = handlers.respond handlers.StatusOK (Some (String_ d)) [].
Proof.
intros Htag d r stored. subst r. unfold handlers.PutManifest.
change (ReadAll (NewReader data)) with (Ok data). cbv beta iota zeta.
change (str "application/vnd.oci.image.manifest.v1+json") with defaultManifestType.
fold stored.
destruct (PutManifest_tag_store h name tag stored data Htag) as (Hput & Hl & Hr & Hb).
destruct (PutManifest h name tag stored data) as [res h'] eqn:Ep.
cbn [fst snd] in *. subst res. cbn [fst snd].
pose proof (GetManifest_by_tag h' name tag stored data Htag Hl Hb) as Ht.
pose proof (GetManifest_by_digest h' name stored data Hr Hb) as Hd.
subst d. unfold handlers.GetManifest, handlers.HeadManifest, ManifestExists.
rewrite Ht, Hd. done.
Qed.

End ManifestFacts.

Section ManifestErrors.
Context {S : Type} `{BlobStorage S}.

(** X17: when the tag link of a tag reference is missing, or the revision
  link of a digest reference that parses is missing, or the reference
  resolves and the blob is missing, [GetManifest] fails with
  [ErrManifestNotFound], and GET and HEAD answer 404 MANIFEST_UNKNOWN. *)
Theorem manifest_not_found (h : OCIStorage S) (name reference : list ascii) :
(isDigestReference reference = false /\
 store_download (ManifestTagCurrentLinkPath name reference) (store h) = Err ErrFileNotFound) \/
(exists d, isDigestReference reference = true /\ ParseDigest reference = Ok d /\
   store_download (ManifestRevisionLinkPath name d) (store h) = Err ErrFileNotFound) \/
(exists d ct, resolveReference h name reference = Ok (d, ct) /\
   store_download (BlobDataPath d) (store h) = Err ErrFileNotFound) ->
GetManifest h name reference = Err ErrManifestNotFound /\
handlers.GetManifest h name reference
  = handlers.respondOCIError handlers.StatusNotFound handlers.OCIErrorManifestUnknown
      "manifest not found" /\
handlers.HeadManifest h name reference
  = handlers.respondOCIError handlers.StatusNotFound handlers.OCIErrorManifestUnknown
      "manifest not found".
Proof.
intros Hcase.
assert (Hg : GetManifest h name reference = Err ErrManifestNotFound).
{ unfold GetManifest.
  destruct Hcase as [[Ht Hd]|[(d & Ht & Hp & Hd)|(d & ct & Hr & Hd)]].
  - unfold resolveReference. by rewrite Ht, Hd.
  - unfold resolveReference, readManifestMeta. by rewrite Ht, Hp, Hd.
  - by rewrite Hr, Hd. }
split; [done|].
unfold handlers.GetManifest, handlers.HeadManifest, ManifestExists. by rewrite Hg.
Qed.

(** X18: HEAD on a manifest answers as GET does, minus the body: same
  status, same OCI error, same Docker-Content-Digest, and an empty
  body, for every store, repository and reference. *)
Theorem HeadManifest_as_GetManifest (h : OCIStorage S) (name reference : list ascii) :
let head := handlers.HeadManifest h name reference in
let get := handlers.GetManifest h name reference in
handlers.Status head = handlers.Status get /\
handlers.OCIError head = handlers.OCIError get /\
handlers.ContentDigest head = handlers.ContentDigest get /\
handlers.Body head = [].
Proof.
unfold handlers.HeadManifest, handlers.GetManifest, ManifestExists.
destruct (GetManifest h name reference) as [[[data d] ct]|e]; [done|].
by destruct (errors_Is e ErrManifestNotFound).
Qed.

(** X19: GET on a blob whose digest string parses answers 200 with the
  stored bytes and echoes the trimmed digest string of the request as
  Docker-Content-Digest when the store has the blob path, and 404
  BLOB_UNKNOWN when the store reports the path missing. *)
Theorem GetBlob_handler (h : OCIStorage S) (digestStr : list ascii) (d : DigestInfo) :
ParseDigest digestStr = Ok d ->
(forall rc, store_download (BlobDataPath d) (store h) = Ok rc ->
   handlers.GetBlob h digestStr
   = handlers.respond handlers.StatusOK (Some (strings.TrimSpace digestStr)) (rd_data rc)) /\
(store_download (BlobDataPath d) (store h) = Err ErrFileNotFound ->
   GetBlob h d = Err ErrBlobNotFound /\
   handlers.GetBlob h digestStr
   = handlers.respondOCIError handlers.StatusNotFound handlers.OCIErrorBlobUnknown
       "blob not found").
Proof.
intros Hd. unfold handlers.GetBlob, GetBlob. rewrite Hd. split.
- intros rc ->. apply ParseDigest_inv in Hd as (-> & _). reflexivity.
- intros ->. done.
Qed.

End ManifestErrors.

Lemma tag_moves_revision_stays_witness :
  let s1 := (PutManifest emptyRegistry (str "myrepo") (str "latest") (str "a/b") (str "{1}")).2 in
  let s2 := (PutManifest s1 (str "myrepo") (str "latest") (str "c/d") (str "{2}")).2 in
  GetManifest s2 (str "myrepo") (String_ (computeSHA256 (str "{1}")))
  = Ok (str "{1}", computeSHA256 (str "{1}"), reported_type (str "a/b")).
Proof.
  refine (proj2 (proj2 (proj2 (tag_moves_revision_stays emptyRegistry (str "myrepo")
            (str "latest") (str "a/b") (str "{1}") (str "c/d") (str "{2}") eq_refl _)))).
  intros E. apply (f_equal Hex) in E. vm_compute in E. discriminate.
Defined.

Lemma manifest_push_pull_witness :
  let r := handlers.PutManifest emptyRegistry (str "myrepo") (str "v1.0") []
             (NewReader (str "{}")) in
  handlers.GetManifest r.2 (str "myrepo") (str "v1.0")
  = handlers.respond handlers.StatusOK (Some (String_ (computeSHA256 (str "{}")))) (str "{}").
Proof.
  exact (proj1 (proj2 (proj2 (manifest_push_pull emptyRegistry (str "myrepo") (str "v1.0") []
                                (str "{}") eq_refl)))).
Defined.

Lemma manifest_not_found_witness :
  handlers.GetManifest emptyRegistry (str "nonexistent") (str "latest")
  = handlers.respondOCIError handlers.StatusNotFound handlers.OCIErrorManifestUnknown
      "manifest not found".
Proof.
  refine (proj1 (proj2 (manifest_not_found emptyRegistry (str "nonexistent") (str "latest") _))).
  left. split; reflexivity.
Defined.

Lemma GetBlob_handler_witness :
  handlers.GetBlob emptyRegistry (str " sha256:abcd")
  = handlers.respondOCIError handlers.StatusNotFound handlers.OCIErrorBlobUnknown
      "blob not found".
Proof.
  refine (proj2 (proj2 (GetBlob_handler emptyRegistry (str " sha256:abcd")
                          {| Algorithm := str "sha256"; Hex := str "abcd" |} _) _)).
  - vm_compute. reflexivity.
  - reflexivity.
Defined.

Section BlobHandlers.
Context {S : Type} `{BlobStorage S}.

(** X20: HEAD on a blob whose digest string parses answers 404
  BLOB_UNKNOWN when the store says the blob path does not exist, and 200
  with the trimmed digest string of the request when the path exists
  and reads to the end; the engine then reports the number of bytes
  read as the size. *)
Theorem HeadBlob_handler (h : OCIStorage S) (digestStr : list ascii) (d : DigestInfo) :
ParseDigest digestStr = Ok d ->
(store_exists (BlobDataPath d) (store h) = Ok false ->
   GetBlobInfo h d = Err ErrBlobNotFound /\
   handlers.HeadBlob h digestStr
   = handlers.respondOCIError handlers.StatusNotFound handlers.OCIErrorBlobUnknown
       "blob not found") /\
(forall rc data,
   store_exists (BlobDataPath d) (store h) = Ok true ->
   store_download (BlobDataPath d) (store h) = Ok rc ->
   ReadAll rc = Ok data ->
   GetBlobInfo h d = Ok (d, Z.of_nat (length data)) /\
   handlers.HeadBlob h digestStr
   = handlers.respond handlers.StatusOK (Some (strings.TrimSpace digestStr)) []).
Proof.
intros Hd. unfold handlers.HeadBlob, GetBlobInfo, BlobExists. rewrite Hd. split.
- intros ->. done.
- intros rc data -> -> ->. split; [done|].
  apply ParseDigest_inv in Hd as (-> & _). reflexivity.
Qed.

(** X21: a POST that starts an upload without a digest never reads the
  body.  When the random source fails it answers 500
  BLOB_UPLOAD_INVALID and the engine is unchanged; when the scratch
  object cannot be created it answers the same and the new session is
  taken back. *)
Theorem InitiateBlobUpload_failures (h : OCIStorage S) (name : list ascii) (body : Reader)
  (now now1 now2 : Z) (rnd : result (list ascii)) :
let r := handlers.InitiateBlobUpload h name [] body now now1 now2 rnd in
let failed := handlers.respondOCIError handlers.StatusInternalServerError
                handlers.OCIErrorBlobUploadInvalid "failed to initiate upload" in
(forall e, rnd = Err e -> r = (failed, h)) /\
(forall uuid e st',
   generateUUID rnd = Ok uuid ->
   store_upload (UploadDataPath uuid) [] (store h) = (Some e, st') ->
   r.1 = failed /\ store r.2 = st' /\ sessions (sm r.2) !! uuid = None) /\
(forall body', handlers.InitiateBlobUpload h name [] body' now now1 now2 rnd = r).
Proof.
intros r failed. subst r. unfold handlers.InitiateBlobUpload.
change (negb (bytes_eqb [] [])) with false. cbv iota.
split; [|split; [|done]].
- intros e ->. unfold InitiateUpload, Create. simpl. by destruct h.
- intros uuid e st' Hu Hup. unfold InitiateUpload, Create. rewrite Hu, Hup.
  simpl. repeat split; try done. apply lookup_delete_eq.
Qed.

End BlobHandlers.

Lemma HeadBlob_handler_witness :
  handlers.HeadBlob emptyRegistry (str "sha256:abcd")
  = handlers.respondOCIError handlers.StatusNotFound handlers.OCIErrorBlobUnknown
      "blob not found".
Proof.
  refine (proj2 (proj1 (HeadBlob_handler emptyRegistry (str "sha256:abcd")
                          {| Algorithm := str "sha256"; Hex := str "abcd" |} _) _)).
  - vm_compute. reflexivity.
  - reflexivity.
Defined.

Lemma InitiateBlobUpload_failures_witness :
  handlers.InitiateBlobUpload emptyRegistry (str "myrepo") [] (NewReader []) 0 0 0
    (Err (ErrOther (str "entropy unavailable")))
  = (handlers.respondOCIError handlers.StatusInternalServerError
       handlers.OCIErrorBlobUploadInvalid "failed to initiate upload", emptyRegistry).
Proof.
  exact (proj1 (InitiateBlobUpload_failures emptyRegistry (str "myrepo") (NewReader []) 0 0 0
                  (Err (ErrOther (str "entropy unavailable"))))
           (ErrOther (str "entropy unavailable")) eq_refl).
Defined.
